(** * Text layout and font decoding of [writer.py] over the ILI9341 driver

    A shallow embedding of [_get_char_addr], [Writer.draw_char],
    [Writer._char_width], [Writer.clear_screen], [Writer._printchar],
    [Writer.printstring] and [Writer.stringlen] (file [writer.py]) and of the
    part of the display driver they call: [ILI9341.pixel], [ILI9341.fill] and
    [ILI9341.fill_rectangle] (file [ili9341.py]); then of the rest of the
    driver that computes ([hline], [vline], [color565], [set_rotation]), of
    the fixed-pitch helpers of the writer, of the clock driver [ds3231.py]
    except its floating-point temperature, and of the weekday lookup of
    [main.py].

    Python integers are unbounded, so they are [Z].  A font is a [bytearray]:
    a list of bytes, indexed the way Python indexes a sequence (a negative
    index counts from the end, an index out of range raises [IndexError]).
    A raised exception is [None] in the [option] monad: the only one these
    functions can raise is the [IndexError] of a font too short for its own
    header, directory or glyph data, and what was written before it is not
    tracked. *)

From Stdlib Require Import ZArith List Bool Lia String Ascii.
From Stdlib Require Import Strings.Byte.
Import ListNotations.
Open Scope Z_scope.

(** ** The exception monad *)

Definition bind {A B : Type} (m : option A) (k : A -> option B) : option B :=
  match m with
  | Some a => k a
  | None => None
  end.

Notation "x <- m ;; k" := (bind m (fun x => k))
  (at level 61, m at next level, right associativity).

(** [for i in l: s = body(i, s)], stopping at the first exception. *)
Fixpoint foldM {S : Type} (body : Z -> S -> option S) (l : list Z) (s : S)
  : option S :=
  match l with
  | [] => Some s
  | i :: l' => s' <- body i s ;; foldM body l' s'
  end.

(** Python's [range(n)]: empty when [n <= 0]. *)
Definition range (n : Z) : list Z := map Z.of_nat (seq 0 (Z.to_nat n)).

(** ** Byte arrays *)

Definition bytearray := list byte.

Definition byte_val (b : byte) : Z := Z.of_N (Byte.to_N b).

(** [buf[i]] *)
Definition getitem (buf : bytearray) (i : Z) : option Z :=
  let n := Z.of_nat (List.length buf) in
  let j := if i <? 0 then i + n else i in
  if (0 <=? j) && (j <? n)
  then option_map byte_val (nth_error buf (Z.to_nat j))
  else None.

Notation "buf .[ i ]" := (getitem buf i)
  (at level 1, left associativity, format "buf .[ i ]").

(** A byte array from a list of numbers (each taken modulo 256), to write
    fonts down. *)
Definition byte_of_Z (z : Z) : byte :=
  match Byte.of_N (Z.to_N (z mod 256)) with
  | Some b => b
  | None => x00
  end.

Definition bytes (l : list Z) : bytearray := map byte_of_Z l.

(** ** writer.py: header constants (lines 41-48) *)

Definition _TWO_BYTE_INDEX : Z := 0.
Definition _ONE_BYTE_INDEX : Z := 1.
Definition _MAX_CHARS : Z := 2.
Definition _HEIGHT : Z := 3.
Definition _WIDTH : Z := 4.
Definition _MISSING : Z := 5.
Definition _LAST_CHAR : Z := 7.

(** The test of lines 59, 66 and 193:
    [letter >= font[_LAST_CHAR] or letter < font[_MISSING + 2]]
    ([or] reads its right operand only when the left one is false). *)
Definition char_is_missing (font : bytearray) (letter : Z) : option bool :=
  last <- font.[_LAST_CHAR] ;;
  if letter >=? last then Some true
  else first <- font.[_MISSING + 2] ;; Some (letter <? first).

(** [_get_char_addr(font, letter)], lines 55-72. *)
Definition _get_char_addr (font : bytearray) (letter : Z) : option Z :=
  index <- font.[_MAX_CHARS] ;;
  mode <- font.[index] ;;
  r <- (if mode =? _TWO_BYTE_INDEX then
          let index := index + 1 in
          missing <- char_is_missing font letter ;;
          letter <- (if missing then font.[_MISSING] else Some letter) ;;
          first <- font.[_MISSING + 2] ;;
          let letter := letter - first in
          let idx := index + letter * 2 in
          hi <- font.[idx] ;;
          lo <- font.[idx + 1] ;;
          Some (Z.lor (Z.shiftl hi 8) lo, index)
        else
          let index := index + 1 in
          missing <- char_is_missing font letter ;;
          letter <- (if missing then font.[_MISSING] else Some letter) ;;
          first <- font.[_MISSING + 2] ;;
          let letter := letter - first in
          let idx := index + letter in
          offset <- font.[idx] ;;
          Some (offset, index)) ;;
  let '(offset, index) := r in
  last <- font.[_LAST_CHAR] ;;
  first <- font.[_MISSING + 2] ;;
  base <- font.[_MAX_CHARS] ;;
  mode' <- font.[base] ;;
  Some (offset + index + 1
        + (last - first) * (if mode' =? _TWO_BYTE_INDEX then 1 else 0)).

(** ** ili9341.py: the display *)

Module ILI9341.

(** What reaches the display: the two methods the Writer calls and, below
    them, every [_set_window]. *)
Inductive call : Type :=
| Call_pixel (x y color : Z)
| Call_fill (color : Z)
| Call_set_window (x0 y0 x1 y1 : Z).

(** [width] and [height] are the attributes of the driver object.  [gram] is
    the controller's display memory, one 16-bit word per pixel, which a RAM
    write fills through the active window.  [calls] records, oldest first, the
    calls received. *)
Record t : Type := mk {
  width : Z;
  height : Z;
  gram : Z -> Z -> Z;
  calls : list call
}.

Definition record (self : t) (c : call) : t :=
  mk self.(width) self.(height) self.(gram) (self.(calls) ++ [c]).

(** [ustruct.pack(">H", color)]: the low 16 bits. *)
Definition pack_H (color : Z) : Z := color mod 65536.

(** [_set_window] followed by the RAM write of [(x1-x0+1)*(y1-y0+1)] words
    of one color: the window is filled. *)
Definition write_window (self : t) (x0 y0 x1 y1 color : Z) : t :=
  let self := record self (Call_set_window x0 y0 x1 y1) in
  mk self.(width) self.(height)
     (fun px py =>
        if (x0 <=? px) && (px <=? x1) && (y0 <=? py) && (py <=? y1)
        then pack_H color
        else self.(gram) px py)
     self.(calls).

(** [pixel(self, x, y, color)], lines 208-212. *)
Definition pixel (self : t) (x y color : Z) : t :=
  let self := record self (Call_pixel x y color) in
  if negb ((0 <=? x) && (x <? self.(width))
           && ((0 <=? y) && (y <? self.(height))))
  then self
  else write_window self x y x y color.

(** [fill_rectangle(self, x, y, w, h, color)], lines 214-239: after the
    clamping, [w * h] words are written in chunks. *)
Definition fill_rectangle (self : t) (x y w h color : Z) : t :=
  let x := Z.min (self.(width) - 1) (Z.max 0 x) in
  let y := Z.min (self.(height) - 1) (Z.max 0 y) in
  let w := Z.min (self.(width) - x) (Z.max 1 w) in
  let h := Z.min (self.(height) - y) (Z.max 1 h) in
  write_window self x y (x + w - 1) (y + h - 1) color.

(** [fill(self, color)], lines 242-243. *)
Definition fill (self : t) (color : Z) : t :=
  let self := record self (Call_fill color) in
  fill_rectangle self 0 0 self.(width) self.(height) color.

(** [hline] and [vline], lines 245-249. *)
Definition hline (self : t) (x y w color : Z) : t :=
  fill_rectangle self x y w 1 color.

Definition vline (self : t) (x y h color : Z) : t :=
  fill_rectangle self x y 1 h color.

(** [color565(r, g, b)], lines 85-87: [<<] and [>>] bind tighter than [|]. *)
Definition color565 (r g b : Z) : Z :=
  Z.lor (Z.lor (Z.shiftl (Z.land r 248) 8) (Z.shiftl (Z.land g 252) 3))
        (Z.shiftr b 3).

Definition ILI9341_TFTWIDTH : Z := 240.
Definition ILI9341_TFTHEIGHT : Z := 320.
Definition ILI9341_MADCTL_MY : Z := 128.
Definition ILI9341_MADCTL_MX : Z := 64.
Definition ILI9341_MADCTL_MV : Z := 32.
Definition ILI9341_MADCTL_BGR : Z := 8.

(** [set_rotation(self, r)], lines 177-199.  The attribute [rotation] it
    assigns and the data byte it sends after the MADCTL command are returned
    beside the object ([None] when no branch of the [if] sends one). *)
Definition set_rotation (self : t) (r : Z) : t * Z * option Z :=
  let rotation := r mod 4 in
  if rotation =? 0 then
    (mk ILI9341_TFTWIDTH ILI9341_TFTHEIGHT self.(gram) self.(calls), rotation,
     Some (Z.lor ILI9341_MADCTL_MX ILI9341_MADCTL_BGR))
  else if rotation =? 1 then
    (mk ILI9341_TFTHEIGHT ILI9341_TFTWIDTH self.(gram) self.(calls), rotation,
     Some (Z.lor ILI9341_MADCTL_MV ILI9341_MADCTL_BGR))
  else if rotation =? 2 then
    (mk ILI9341_TFTWIDTH ILI9341_TFTHEIGHT self.(gram) self.(calls), rotation,
     Some (Z.lor ILI9341_MADCTL_MY ILI9341_MADCTL_BGR))
  else if rotation =? 3 then
    (mk ILI9341_TFTHEIGHT ILI9341_TFTWIDTH self.(gram) self.(calls), rotation,
     Some (Z.lor (Z.lor (Z.lor ILI9341_MADCTL_MX ILI9341_MADCTL_MY)
                    ILI9341_MADCTL_MV) ILI9341_MADCTL_BGR))
  else (self, rotation, None).

End ILI9341.

(** ** writer.py: class Writer *)

Module Writer.

(** What [draw_char] returns: [True] at line 93, the width at line 112. *)
Inductive draw_result : Type :=
| RetTrue
| RetWidth (width : Z).

(** The attributes set by [__init__], and two histories the code does not
    keep, used to state where and when glyphs are drawn: [drawn] lists the
    [(char_code, x, y)] of each call of [draw_char] made by [_printchar],
    [console] the messages printed. *)
Record t : Type := mk {
  device : ILI9341.t;
  font : bytearray;
  text_color : Z;
  bgcolor : option Z;
  x : Z;
  y : Z;
  usd : bool;
  landscape : bool;
  reverse : bool;
  _clip : bool;
  _ha : bool;
  _va : bool;
  height : Z;
  max_width : Z;
  baseline : Z;
  map_space : bool;
  drawn : list (Z * Z * Z);
  console : list string
}.

Definition _VERBOSE : bool := true.
Definition _NO_VERBOSE : bool := false.

(** [Writer(device, font, color=1, bgcolor=0, verbose=True)],
    lines 118-151.  [bgcolor] is [None] for a transparent background.  The
    device is a display and the font a byte array, so the two [isinstance]
    tests of lines 148-151 are false. *)
Definition __init__ (device : ILI9341.t) (font : bytearray) (color : Z)
  (bgcolor : option Z) (verbose : bool) : option t :=
  h <- font.[_HEIGHT] ;;
  mw <- font.[_WIDTH] ;;
  Some (mk device font color bgcolor 0 0 false false false verbose true false
           h mw (h - 1) true [] []).

Definition set_device (self : t) (d : ILI9341.t) : t :=
  mk d self.(font) self.(text_color) self.(bgcolor) self.(x) self.(y)
     self.(usd) self.(landscape) self.(reverse) self.(_clip) self.(_ha)
     self.(_va) self.(height) self.(max_width) self.(baseline)
     self.(map_space) self.(drawn) self.(console).

Definition set_xy (self : t) (x' y' : Z) : t :=
  mk self.(device) self.(font) self.(text_color) self.(bgcolor) x' y'
     self.(usd) self.(landscape) self.(reverse) self.(_clip) self.(_ha)
     self.(_va) self.(height) self.(max_width) self.(baseline)
     self.(map_space) self.(drawn) self.(console).

Definition note_drawn (self : t) (char_code : Z) : t :=
  mk self.(device) self.(font) self.(text_color) self.(bgcolor) self.(x)
     self.(y) self.(usd) self.(landscape) self.(reverse) self.(_clip)
     self.(_ha) self.(_va) self.(height) self.(max_width) self.(baseline)
     self.(map_space) (self.(drawn) ++ [(char_code, self.(x), self.(y))])
     self.(console).

Definition print (self : t) (msg : string) : t :=
  mk self.(device) self.(font) self.(text_color) self.(bgcolor) self.(x)
     self.(y) self.(usd) self.(landscape) self.(reverse) self.(_clip)
     self.(_ha) self.(_va) self.(height) self.(max_width) self.(baseline)
     self.(map_space) self.(drawn) (self.(console) ++ [msg]).

(** The body of the loops of lines 98-104 (landscape) and 106-111: one cell
    of the glyph.  [byte & mask] is true when it is not 0. *)
Definition draw_cell (d : ILI9341.t) (byte mask px py _color : Z)
  (_bgcolor : option Z) : ILI9341.t :=
  if negb (Z.land byte mask =? 0) then ILI9341.pixel d px py _color
  else match _bgcolor with
       | Some bg => ILI9341.pixel d px py bg
       | None => d
       end.

(** [draw_char(char_code, x, y, _display, _font, _color, _bgcolor,
    _landscape, _reverse)], lines 85-112. *)
Definition draw_char (char_code x y : Z) (_display : ILI9341.t)
  (_font : bytearray) (_color : Z) (_bgcolor : option Z)
  (_landscape _reverse : bool) : option (ILI9341.t * draw_result) :=
  let fnt := _font in
  height <- fnt.[_HEIGHT] ;;
  offset <- _get_char_addr fnt char_code ;;
  if offset =? 0 then Some (_display, RetTrue)
  else
    width <- fnt.[offset] ;;
    let offset := offset + 1 in
    d <- (if _landscape then
            foldM (fun row =>
              foldM (fun col d =>
                b <- fnt.[offset + (row * width + col) / 8] ;;
                Some (draw_cell d b (Z.shiftl 1 (col mod 8))
                        (x + row) (y + width - col - 1) _color _bgcolor))
                (range width))
              (range height) _display
          else
            foldM (fun row =>
              foldM (fun col d =>
                b <- fnt.[offset + (col * height + row) / 8] ;;
                Some (draw_cell d b (Z.shiftl 1 (row mod 8))
                        (x + col) (y + row) _color _bgcolor))
                (range width))
              (range height) _display) ;;
    Some (d, RetWidth width).

(** [stringlen] and [_printchar] apply [ord] to each character of the
    string: a string is the list of its code points. *)
Definition str := list Z.

Definition ord (c : ascii) : Z := Z.of_N (N_of_ascii c).

Definition str_of (s : string) : str := map ord (list_ascii_of_string s).

(** [_char_width(self, char_code)], lines 182-198. *)
Definition _char_width (self : t) (char_code : Z) : option Z :=
  a <- _get_char_addr self.(font) char_code ;;
  if a =? 0 then Some 0
  else
    let char_code :=
      if self.(map_space) && (char_code =? ord " ") then ord "0"
      else char_code in
    missing <- char_is_missing self.(font) char_code ;;
    char_code <- (if missing then self.(font).[_MISSING]
                  else Some char_code) ;;
    a <- _get_char_addr self.(font) char_code ;;
    let offset := a - 1 in
    self.(font).[offset].

(** [stringlen(self, s)], lines 171-175. *)
Fixpoint stringlen_from (self : t) (l : Z) (s : str) : option Z :=
  match s with
  | [] => Some l
  | char_code :: s' =>
      w <- _char_width self char_code ;;
      stringlen_from self (l + w) s'
  end.

Definition stringlen (self : t) (s : str) : option Z := stringlen_from self 0 s.

(** [clear_screen(self)], lines 201-205; the device has a [fill]. *)
Definition clear_screen (self : t) : t :=
  let self :=
    set_device self
      (ILI9341.fill self.(device)
         (match self.(bgcolor) with Some c => c | None => 0 end)) in
  set_xy self 0 0.

(** Lines 222-228 of [_printchar]: wrap, and clear when below the screen. *)
Definition wrap_text (self : t) (width : Z) : t :=
  if self.(x) + width >? self.(device).(ILI9341.width) then
    let self := set_xy self 0 (self.(y) + self.(height)) in
    if self.(y) >=? self.(device).(ILI9341.height) then clear_screen self
    else self
  else self.

(** Lines 229-244 of [_printchar]: the two clips, then the glyph. *)
Definition render_char (self : t) (char_code width : Z) : option t :=
  if self.(y) + self.(height) <? 0 then
    Some (if self.(_clip) && _VERBOSE
          then print self "Font too tall for screen" else self)
  else if self.(y) >=? self.(device).(ILI9341.height) then
    Some (if self.(_clip) && _VERBOSE
          then print self "Font off bottom of screen" else self)
  else
    let self := note_drawn self char_code in
    r <- draw_char char_code self.(x) self.(y) self.(device) self.(font)
           self.(text_color) self.(bgcolor) self.(landscape)
           self.(reverse) ;;
    let self := set_device self (fst r) in
    Some (set_xy self (self.(x) + width) self.(y)).

(** [_printchar(self, char_code)], lines 215-244, after the [ord] of
    line 216. *)
Definition _printchar (self : t) (char_code : Z) : option t :=
  width <- _char_width self char_code ;;
  if width =? 0 then Some self
  else render_char (wrap_text self width) char_code width.

(** [printstring(self, s)], lines 209-211. *)
Fixpoint printstring (self : t) (s : str) : option t :=
  match s with
  | [] => Some self
  | char_code :: s' =>
      self' <- _printchar self char_code ;;
      printstring self' s'
  end.

(** [chars_per_row(self)], lines 261-262: [//] raises [ZeroDivisionError]
    on a zero [max_width]. *)
Definition chars_per_row (self : t) : option Z :=
  if self.(max_width) =? 0 then None
  else Some (self.(device).(ILI9341.width) / self.(max_width)).

(** [charpos(self, row, col)], lines 267-270. *)
Definition charpos (self : t) (row col : Z) : Z * Z :=
  if self.(landscape)
  then (row * self.(height), col * self.(max_width))
  else (col * self.(max_width), row * self.(height)).

End Writer.

(** ** ds3231.py: the clock *)

Module DS3231.

Definition DS3231_I2C_ADDR : Z := 104.
Definition DS3231_REG_SECS : Z := 0.
Definition DS3231_REG_MINS : Z := 1.
Definition DS3231_REG_HOUR : Z := 2.
Definition DS3231_REG_WDAY : Z := 3.
Definition DS3231_REG_MDAY : Z := 4.
Definition DS3231_REG_MNTH : Z := 5.
Definition DS3231_REG_YEAR : Z := 6.
Definition DS3231_REG_CTRL : Z := 14.
Definition DS3231_REG_STATUS : Z := 15.

(** [bcd_to_dec] and [dec_to_bcd], lines 22-26. *)
Definition bcd_to_dec (bcd : Z) : Z := bcd / 16 * 10 + bcd mod 16.

Definition dec_to_bcd (dec : Z) : Z := dec / 10 * 16 + dec mod 10.

(** [i2c] is the memory of the chip at address 0x68, one value per register
    address, read by [readfrom_mem_into] and written by [writeto_mem]; the
    chip itself is taken not to change it between two calls.  [buf1] is the
    byte of the one-byte buffer and [buf7] the content of the seven-byte
    one. *)
Record t : Type := mk {
  i2c : Z -> Z;
  buf1 : Z;
  buf7 : list Z
}.

(** Storing [v] in a [bytearray]: [ValueError] unless [0 <= v < 256]. *)
Definition as_byte (v : Z) : option Z :=
  if (0 <=? v) && (v <? 256) then Some v else None.

(** [1 << bit]: [ValueError] on a negative count. *)
Definition bit_mask (bit : Z) : option Z :=
  if bit <? 0 then None else Some (Z.shiftl 1 bit).

(** [i2c.writeto_mem(addr, reg_addr, buf)] *)
Definition writeto_mem (mem : Z -> Z) (reg_addr : Z) (buf : list Z)
  : Z -> Z :=
  fun r =>
    if (reg_addr <=? r) && (r <? reg_addr + Z.of_nat (List.length buf))
    then nth (Z.to_nat (r - reg_addr)) buf 0
    else mem r.

(** [i2c.readfrom_mem_into(addr, reg_addr, buf)] for a buffer of [n]
    bytes. *)
Definition readfrom_mem (mem : Z -> Z) (reg_addr n : Z) : list Z :=
  map (fun i => mem (reg_addr + i)) (range n).

(** [_read_reg], lines 39-41. *)
Definition _read_reg (self : t) (reg_addr : Z) : t * Z :=
  let self := mk self.(i2c) (self.(i2c) reg_addr) self.(buf7) in
  (self, self.(buf1)).

(** [_write_reg], lines 43-45. *)
Definition _write_reg (self : t) (reg_addr value : Z) : option t :=
  b <- as_byte value ;;
  let self := mk self.(i2c) b self.(buf7) in
  Some (mk (writeto_mem self.(i2c) reg_addr [self.(buf1)]) self.(buf1)
           self.(buf7)).

(** [_set_bit], lines 47-50. *)
Definition _set_bit (self : t) (reg_addr bit : Z) : option t :=
  let '(self, val) := _read_reg self reg_addr in
  m <- bit_mask bit ;;
  let val := Z.lor val m in
  _write_reg self reg_addr val.

(** [_clear_bit], lines 52-55. *)
Definition _clear_bit (self : t) (reg_addr bit : Z) : option t :=
  let '(self, val) := _read_reg self reg_addr in
  m <- bit_mask bit ;;
  let val := Z.land val (Z.lnot m) in
  _write_reg self reg_addr val.

(** [DS3231(i2c)], lines 29-37. *)
Definition __init__ (mem : Z -> Z) : option t :=
  let self := mk mem 0 [0; 0; 0; 0; 0; 0; 0] in
  self <- _clear_bit self DS3231_REG_CTRL 7 ;;
  _clear_bit self DS3231_REG_STATUS 7.

(** The tuple [(year, month, mday, wday, hour, minute, sec, subsec)]. *)
Definition datetime_tuple : Type := Z * Z * Z * Z * Z * Z * Z * Z.

(** [buf[k]] for the seven-byte buffer, whose indices here are constants in
    range. *)
Definition buf_get (buf : list Z) (k : nat) : Z := nth k buf 0.

(** [datetime(self, dt=None)], lines 57-109: the tuple read when [dt] is
    [None], no value after setting. *)
Definition datetime (self : t) (dt : option datetime_tuple)
  : option (t * option datetime_tuple) :=
  match dt with
  | None =>
      let self :=
        mk self.(i2c) self.(buf1) (readfrom_mem self.(i2c) DS3231_REG_SECS 7)
      in
      let sec := bcd_to_dec (Z.land (buf_get self.(buf7) 0) 127) in
      let minute := bcd_to_dec (Z.land (buf_get self.(buf7) 1) 127) in
      let hour_reg := buf_get self.(buf7) 2 in
      let hour :=
        if negb (Z.land hour_reg 64 =? 0) then
          let hour := bcd_to_dec (Z.land hour_reg 31) in
          if negb (Z.land hour_reg 32 =? 0) && negb (hour =? 12)
          then hour + 12
          else if (Z.land hour_reg 32 =? 0) && (hour =? 12) then 0
          else hour
        else bcd_to_dec (Z.land hour_reg 63) in
      let wday := bcd_to_dec (Z.land (buf_get self.(buf7) 3) 7) in
      let mday := bcd_to_dec (Z.land (buf_get self.(buf7) 4) 63) in
      let month_reg := buf_get self.(buf7) 5 in
      let month := bcd_to_dec (Z.land month_reg 31) in
      let year := bcd_to_dec (buf_get self.(buf7) 6) + 2000 in
      Some (self, Some (year, month, mday, wday, hour, minute, sec, 0))
  | Some (year, month, mday, wday, hour, minute, sec, _) =>
      b0 <- as_byte (Z.land (dec_to_bcd sec) 127) ;;
      b1 <- as_byte (Z.land (dec_to_bcd minute) 127) ;;
      b2 <- as_byte (Z.land (dec_to_bcd hour) 63) ;;
      b3 <- as_byte (Z.land (dec_to_bcd wday) 7) ;;
      b4 <- as_byte (Z.land (dec_to_bcd mday) 63) ;;
      b5 <- as_byte (Z.land (dec_to_bcd month) 31) ;;
      b5 <- (if year >=? 2100 then as_byte (Z.lor b5 128) else Some b5) ;;
      b6 <- as_byte (dec_to_bcd (year mod 100)) ;;
      let self := mk self.(i2c) self.(buf1) [b0; b1; b2; b3; b4; b5; b6] in
      let self :=
        mk (writeto_mem self.(i2c) DS3231_REG_SECS self.(buf7)) self.(buf1)
           self.(buf7) in
      self <- _clear_bit self DS3231_REG_STATUS 7 ;;
      Some (self, None)
  end.

(** [start_temperature_conversion], lines 134-163. *)
Definition start_temperature_conversion (self : t) : option t :=
  let '(self, current_ctrl) := _read_reg self DS3231_REG_CTRL in
  m <- bit_mask 5 ;;
  self <- (if Z.land current_ctrl m =? 0
           then m' <- bit_mask 5 ;;
                _write_reg self DS3231_REG_CTRL (Z.lor current_ctrl m')
           else Some self) ;;
  _set_bit self DS3231_REG_CTRL 5.

End DS3231.

(** ** main.py: the name of the day *)

Module Main.

Definition DAYS_OF_WEEK : list string :=
  ["Monday"; "Tuesday"; "Wednesday"; "Thursday"; "Friday"; "Saturday";
   "Sunday"]%string.

(** [l[i]] for a Python list. *)
Definition list_getitem {A : Type} (l : list A) (i : Z) : option A :=
  let n := Z.of_nat (List.length l) in
  let j := if i <? 0 then i + n else i in
  if (0 <=? j) && (j <? n) then nth_error l (Z.to_nat j) else None.

(** Lines 186-189 of [update_display_info]: the index computed from the
    weekday of the clock, and the name looked up with it. *)
Definition weekday_name (wday_rtc : Z) : option string :=
  let py_wday := wday_rtc - 1 in
  let py_wday := if py_wday <? 0 then 6 else py_wday in
  list_getitem DAYS_OF_WEEK py_wday.

End Main.

(** ** The cells of a glyph

    The test and the destination that [draw_char] uses for the cell
    [(row, col)] of a glyph whose data starts at [offset]: lines 101-102 in
    landscape, lines 108-109 otherwise. *)

Definition cell_bit (fnt : bytearray) (offset width height : Z)
  (landscape : bool) (row col : Z) : option bool :=
  if landscape then
    b <- fnt.[offset + (row * width + col) / 8] ;;
    Some (negb (Z.land b (Z.shiftl 1 (col mod 8)) =? 0))
  else
    b <- fnt.[offset + (col * height + row) / 8] ;;
    Some (negb (Z.land b (Z.shiftl 1 (row mod 8)) =? 0)).

Definition cell_target (landscape : bool) (x y width row col : Z) : Z * Z :=
  if landscape then (x + row, y + width - col - 1) else (x + col, y + row).

(** The color [draw_char] sends for a cell, if it sends one. *)
Definition cell_color (fnt : bytearray) (offset width height : Z)
  (landscape : bool) (color : Z) (bgcolor : option Z) (row col : Z)
  : option Z :=
  match cell_bit fnt offset width height landscape row col with
  | Some true => Some color
  | Some false => bgcolor
  | None => None
  end.

Section Cells.

Variables (fnt : bytearray) (offset width height : Z) (landscape : bool).
Variables (x y color : Z) (bgcolor : option Z) (d0 : ILI9341.t).

(** Some cell of the glyph sends color [c] to the pixel [(px, py)]. *)
Definition paints (px py c : Z) : Prop :=
  exists row col,
    0 <= row < height /\ 0 <= col < width /\
    cell_target landscape x y width row col = (px, py) /\
    cell_color fnt offset width height landscape color bgcolor row col
      = Some c.

(** What holds of the display all along the two loops. *)
Definition glyph_inv (d : ILI9341.t) : Prop :=
  ILI9341.width d = ILI9341.width d0 /\
  ILI9341.height d = ILI9341.height d0 /\
  (exists evs,
     ILI9341.calls d = ILI9341.calls d0 ++ evs /\
     forall e, In e evs ->
       exists px py c,
         paints px py c /\
         (e = ILI9341.Call_pixel px py c \/
          e = ILI9341.Call_set_window px py px py)) /\
  (forall px py,
     ILI9341.gram d px py = ILI9341.gram d0 px py \/
     exists c, paints px py c).

End Cells.

(** ** Vocabulary of the statements *)

(** The attributes no method of the text path assigns. *)
Definition same_settings (a b : Writer.t) : Prop :=
  Writer.font b = Writer.font a /\
  Writer.text_color b = Writer.text_color a /\
  Writer.bgcolor b = Writer.bgcolor a /\
  Writer.landscape b = Writer.landscape a /\
  Writer.reverse b = Writer.reverse a /\
  Writer._clip b = Writer._clip a /\
  Writer.height b = Writer.height a /\
  Writer.map_space b = Writer.map_space a /\
  ILI9341.width (Writer.device b) = ILI9341.width (Writer.device a) /\
  ILI9341.height (Writer.device b) = ILI9341.height (Writer.device a).

(** The color [clear_screen] fills with. *)
Definition clear_color (self : Writer.t) : Z :=
  match Writer.bgcolor self with Some c => c | None => 0 end.

(** Bit [k] of a bitmap packed 8 bits to the byte from [offset], bit 0 of a
    byte first: the packed bit index of the specification, to compare with
    the test [cell_bit] of the code. *)
Definition spec_packed_bit (fnt : bytearray) (offset k : Z) : option bool :=
  b <- fnt.[offset + k / 8] ;; Some (Z.testbit b (k mod 8)).

(** The pen is on the screen: not right of its right edge, and on one of
    its rows. *)
Definition pen_on_screen (self : Writer.t) : Prop :=
  0 <= Writer.x self <= ILI9341.width (Writer.device self) /\
  0 <= Writer.y self < ILI9341.height (Writer.device self).

(** The pixel [(px, py)] is one the display shows. *)
Definition on_screen (d : ILI9341.t) (px py : Z) : Prop :=
  0 <= px < ILI9341.width d /\ 0 <= py < ILI9341.height d.

(** The box of a glyph drawn at [(x, y)]: [width] by [height] upright,
    [height] by [width] in landscape. *)
Definition in_box (landscape : bool) (x y width height px py : Z) : Prop :=
  if landscape
  then x <= px < x + height /\ y <= py < y + width
  else x <= px < x + width /\ y <= py < y + height.

(** [d'] has the size of [d] and the same content outside the screen. *)
Definition same_off_screen (d d' : ILI9341.t) : Prop :=
  ILI9341.width d' = ILI9341.width d /\
  ILI9341.height d' = ILI9341.height d /\
  forall px py, ~ on_screen d px py ->
    ILI9341.gram d' px py = ILI9341.gram d px py.

(** The cells [done] of a glyph show their color on [d], where they are on
    the screen, and [d] has the size of [d0]. *)
Definition cells_shown (fnt : bytearray) (offset width height : Z)
  (landscape : bool) (x y color : Z) (bgcolor : option Z) (d0 : ILI9341.t)
  (done : Z -> Z -> Prop) (d : ILI9341.t) : Prop :=
  ILI9341.width d = ILI9341.width d0 /\
  ILI9341.height d = ILI9341.height d0 /\
  forall row col k,
    done row col ->
    cell_color fnt offset width height landscape color bgcolor row col
      = Some k ->
    on_screen d0 (fst (cell_target landscape x y width row col))
      (snd (cell_target landscape x y width row col)) ->
    ILI9341.gram d (fst (cell_target landscape x y width row col))
      (snd (cell_target landscape x y width row col))
    = ILI9341.pack_H k.

(** A memory that holds a byte at every address, as a chip's registers do. *)
Definition byte_memory (mem : Z -> Z) : Prop := forall r, 0 <= mem r < 256.

(** The header index of the first character code, commented out at line 47
    of the source ([# _FIRST_CHAR = const(6) Unused]). *)
Definition _FIRST_CHAR : Z := 6.

(** The lookup as the comments of lines 59-68 and the specification state
    it, with [font[_FIRST_CHAR]] where the code has [font[_MISSING + 2]]: a
    code of [[first_char, last_char)] keeps its own directory entry, any
    other takes the entry of the substitute code.  To compare with
    [_get_char_addr]. *)
Definition intended_get_char_addr (font : bytearray) (letter : Z)
  : option Z :=
  index <- font.[_MAX_CHARS] ;;
  mode <- font.[index] ;;
  last <- font.[_LAST_CHAR] ;;
  first <- font.[_FIRST_CHAR] ;;
  let index := index + 1 in
  letter <- (if (letter >=? last) || (letter <? first)
             then font.[_MISSING] else Some letter) ;;
  let letter := letter - first in
  offset <- (if mode =? _TWO_BYTE_INDEX then
               hi <- font.[index + letter * 2] ;;
               lo <- font.[index + letter * 2 + 1] ;;
               Some (Z.lor (Z.shiftl hi 8) lo)
             else font.[index + letter]) ;;
  Some (offset + index + 1
        + (last - first) * (if mode =? _TWO_BYTE_INDEX then 1 else 0)).

(** The width of a character with that lookup: the width byte of its own
    glyph record, the record of ['0'] standing for the space under
    [map_space].  To compare with [Writer._char_width]. *)
Definition intended_char_width (font : bytearray) (map_space : bool)
  (char_code : Z) : option Z :=
  let char_code :=
    if map_space && (char_code =? Writer.ord " ") then Writer.ord "0"
    else char_code in
  a <- intended_get_char_addr font char_code ;;
  font.[a - 1].

(** ** Concrete fonts, displays and writers *)

(** A display of the given size showing one color, no call received yet. *)
Definition display_of (w h color : Z) : ILI9341.t :=
  ILI9341.mk w h (fun _ _ => color) [].

(** Height 8; the byte before the resolved address and the byte at it are
    both 6; 48 bits of glyph data. *)
Definition font_8x6 : bytearray :=
  bytes [0; 0; 8; 8; 6; 64; 32; 64; 1; 1; 6; 6; 255; 129; 129; 129; 129; 255].

(** Height 7, width 5; the first data byte is 1, the other four 0. *)
Definition font_5x7 : bytearray :=
  bytes [0; 0; 8; 7; 5; 64; 32; 64; 1; 1; 5; 5; 1; 0; 0; 0; 0].

(** The byte before the resolved address is 0. *)
Definition font_empty : bytearray :=
  bytes [0; 0; 8; 8; 6; 64; 32; 64; 1; 1; 0; 6; 255; 129; 129; 129; 129; 255].

(** The byte at the resolved address is 0, the byte before it 6. *)
Definition font_blank : bytearray :=
  bytes [0; 0; 8; 8; 6; 64; 32; 64; 1; 1; 6; 0].

(** A font of height 8 with a one-byte index for the codes 32 to 63
    (first character 32 at header byte 6, last 64 at byte 7, substitute
    ['?'] = 63, directory at 9 to 40) and three glyph records: the space,
    0 wide, at 41; ['0'], 6 wide, at 42; ['?'], 5 wide, at 49, which every
    other code of the directory shares. *)
Definition font_three_glyphs : bytearray :=
  bytes ([0; 0; 8; 8; 6; 63; 32; 64; 1]
         ++ [32] ++ repeat 40 15 ++ [33] ++ repeat 40 15
         ++ [0]
         ++ [6; 60; 66; 66; 66; 66; 60]
         ++ [5; 2; 1; 81; 9; 6]).

(** A writer on that font, with and without [map_space]. *)
Definition writer_three_glyphs (map_space : bool) : Writer.t :=
  Writer.mk (display_of 240 320 0) font_three_glyphs 1 (Some 0) 0 0 false
    false false true true false 8 6 7 map_space [] [].

(** A writer as [__init__] leaves it, moved to [(x, y)]. *)
Definition writer_at (d : ILI9341.t) (font : bytearray) (bgcolor : option Z)
  (x y : Z) : option Writer.t :=
  self <- Writer.__init__ d font 1 bgcolor true ;;
  Some (Writer.set_xy self x y).

(** [font_8x6] on a 240 x 8 screen, background 0, the pen at [(x, y)]. *)
Definition writer_8x6 (x y : Z) : Writer.t :=
  Writer.mk (display_of 240 8 0) font_8x6 1 (Some 0) x y false false false
    true true false 8 6 7 true [] [].

(** A font with a one-byte index: directory at 9, one glyph record at 11
    whose first byte is 5, preceded by the byte 6. *)
Definition font_one_byte : bytearray :=
  bytes [0; 0; 8; 7; 6; 64; 32; 64; 1; 1; 6; 5; 32; 0; 0; 0; 0].

(** The same glyph behind a two-byte index. *)
Definition font_two_byte : bytearray :=
  bytes [0; 0; 8; 7; 6; 64; 32; 64; 0; 0; 2; 6; 5; 32; 0; 0; 0; 0].

(** Writers on a 240 x 320 screen: [font_empty] at (10, 20), [font_8x6] at
    the right edge of the line at 16, [font_one_byte] at (0, 0). *)
Definition writer_empty : Writer.t :=
  Writer.mk (display_of 240 320 0) font_empty 1 (Some 0) 10 20 false false
    false true true false 8 6 7 true [] [].

Definition writer_wrap : Writer.t :=
  Writer.mk (display_of 240 320 0) font_8x6 1 (Some 0) 238 16 false false
    false true true false 8 6 7 true [] [].

Definition writer_one_byte : Writer.t :=
  Writer.mk (display_of 240 320 0) font_one_byte 1 (Some 0) 0 0 false false
    false true true false 7 6 6 true [] [].

(** The writer after ["AB"] from [(x, 0)] with [font_8x6] on 240 x 8. *)
Definition after_AB (x : Z) : Writer.t :=
  match Writer.printstring (writer_8x6 x 0) (Writer.str_of "AB") with
  | Some self' => self'
  | None => writer_8x6 x 0
  end.

(** A red screen (0xF800), and what [font_5x7] drawn on it at (10, 10)
    without a background color leaves, upright and in landscape. *)
Definition red_screen : ILI9341.t := display_of 240 320 63488.

Definition drawn_on_red (landscape : bool) : ILI9341.t :=
  match Writer.draw_char 65 10 10 red_screen font_5x7 1 None landscape false
  with
  | Some (d, _) => d
  | None => red_screen
  end.

(** A clock chip showing 2024-06-21, day 5, 12:34:56 in 24-hour mode, with
    the bits 7 of the control (0x0E) and status (0x0F) registers set. *)
Definition rtc_memory : Z -> Z :=
  fun r =>
    if (0 <=? r) && (r <? 19)
    then nth (Z.to_nat r)
           [86; 52; 18; 5; 33; 6; 36; 0; 0; 0; 0; 0; 0; 0; 156; 136; 0; 25; 64]
           0
    else 0.

Definition rtc : DS3231.t := DS3231.mk rtc_memory 0 [0; 0; 0; 0; 0; 0; 0].

(** The same chip in 12-hour mode, showing 12 PM. *)
Definition rtc_12h : DS3231.t :=
  DS3231.mk (fun r => if r =? 2 then 114 else rtc_memory r) 0 [].

(** * Properties *)

(** ** Reading the font *)

Lemma bind_Some {A B : Type} (m : option A) (k : A -> option B) (b : B) :
  (x <- m ;; k x) = Some b -> exists a, m = Some a /\ k a = Some b.
Proof.
  destruct m as [a|]; simpl; intros H; [exists a; auto | discriminate].
Qed.

Ltac bind_inv H :=
  let v := fresh "v" in
  let E := fresh "E" in
  apply bind_Some in H; destruct H as [v [E H]].

Example get_char_addr_one_byte : _get_char_addr font_one_byte 65 = Some 11.
Proof. reflexivity. Qed.

Example get_char_addr_two_byte : _get_char_addr font_two_byte 65 = Some 12.
Proof. reflexivity. Qed.

Lemma byte_val_range (b : byte) : 0 <= byte_val b < 256.
Proof.
  unfold byte_val. pose proof (Byte.to_N_bounded b). lia.
Qed.

Lemma getitem_range (buf : bytearray) (i v : Z) :
  buf.[i] = Some v -> 0 <= v < 256.
Proof.
  unfold getitem.
  destruct ((0 <=? _) && (_ <? _)); [|discriminate].
  destruct (nth_error buf _) as [b|]; simpl; [|discriminate].
  intros H; injection H as <-. apply byte_val_range.
Qed.

(** Both bounds of the test are read at header byte 7 ([_MISSING + 2] and
    [_LAST_CHAR] are the same index), so every code is counted missing. *)
Lemma char_is_missing_always (font : bytearray) (letter : Z) :
  char_is_missing font letter = (last <- font.[_LAST_CHAR] ;; Some true).
Proof.
  unfold char_is_missing.
  change (font.[_MISSING + 2]) with (font.[_LAST_CHAR]).
  destruct (font.[_LAST_CHAR]) as [l|]; simpl; [|reflexivity].
  destruct (letter >=? l) eqn:E; [reflexivity|].
  rewrite Z.geb_leb in E. apply Z.leb_gt in E.
  apply Z.ltb_lt in E. rewrite E. reflexivity.
Qed.

Lemma char_is_missing_true (font : bytearray) (letter : Z) (b : bool) :
  char_is_missing font letter = Some b -> b = true.
Proof.
  rewrite char_is_missing_always.
  destruct (font.[_LAST_CHAR]); simpl; congruence.
Qed.

Lemma char_is_missing_eq (font : bytearray) (c c' : Z) :
  char_is_missing font c = char_is_missing font c'.
Proof.
  rewrite !char_is_missing_always. reflexivity.
Qed.

(** Every code resolves to the record of the substitute glyph. *)
Lemma get_char_addr_any (font : bytearray) (c c' : Z) :
  _get_char_addr font c = _get_char_addr font c'.
Proof.
  unfold _get_char_addr.
  destruct (font.[_MAX_CHARS]) as [index|]; simpl; [|reflexivity].
  destruct (font.[index]) as [mode|]; simpl; [|reflexivity].
  rewrite (char_is_missing_eq font c c').
  destruct (char_is_missing font c') as [b|] eqn:E; simpl.
  - apply char_is_missing_true in E. subst b. reflexivity.
  - destruct (mode =? _TWO_BYTE_INDEX); reflexivity.
Qed.

(** The address is the stored offset plus the directory base plus 2. *)
Lemma get_char_addr_base (font : bytearray) (letter a : Z) :
  _get_char_addr font letter = Some a ->
  exists base offset,
    font.[_MAX_CHARS] = Some base /\ 0 <= base /\ 0 <= offset /\
    a = offset + base + 2.
Proof.
  unfold _get_char_addr.
  change (font.[_MISSING + 2]) with (font.[_LAST_CHAR]).
  intros H.
  bind_inv H. rename v into base, E into Hbase.
  bind_inv H. rename v into mode, E into Hmode.
  bind_inv H. destruct v as [offset index].
  bind_inv H. rename v into l, E0 into Hl.
  rewrite Hl, Hbase in H. simpl in H. rewrite Hmode in H. simpl in H.
  injection H as <-.
  exists base, offset. split; [exact Hbase|].
  pose proof (getitem_range _ _ _ Hbase) as Rb.
  assert (0 <= offset /\ index = base + 1) as [Ho ->].
  { destruct (mode =? _TWO_BYTE_INDEX).
    - do 5 bind_inv E. injection E as <- <-.
      pose proof (getitem_range _ _ _ E3). pose proof (getitem_range _ _ _ E4).
      split; [|reflexivity].
      assert (0 <= Z.shiftl v2 8) by (apply Z.shiftl_nonneg; lia).
      rewrite Z.lor_nonneg. split; [assumption | lia].
    - do 4 bind_inv E. injection E as <- <-.
      pose proof (getitem_range _ _ _ E3). split; [lia | reflexivity]. }
  repeat split; lia.
Qed.

(** ** Loops *)

Lemma In_range (i n : Z) : In i (range n) <-> 0 <= i < n.
Proof.
  unfold range. rewrite in_map_iff. split.
  - intros [k [<- Hk]]. apply in_seq in Hk. lia.
  - intros H. exists (Z.to_nat i). split; [lia|]. apply in_seq. lia.
Qed.

Lemma range_nonpos (n : Z) : n <= 0 -> range n = [].
Proof.
  intros H. unfold range. replace (Z.to_nat n) with 0%nat by lia. reflexivity.
Qed.

(** A property kept by every iteration is kept by the loop. *)
Lemma foldM_inv {S : Type} (P : S -> Prop) (body : Z -> S -> option S) :
  forall (l : list Z) (s s' : S),
    (forall i t t', In i l -> P t -> body i t = Some t' -> P t') ->
    P s -> foldM body l s = Some s' -> P s'.
Proof.
  induction l as [|i l IH]; intros s s' Hbody Hs H.
  - injection H as <-. exact Hs.
  - cbn [foldM] in H. bind_inv H. apply (IH v s').
    + intros j t t' Hj. apply Hbody. right. exact Hj.
    + apply (Hbody i s v); [left; reflexivity | exact Hs | exact E].
    + exact H.
Qed.

(** A loop whose iterations all return their state unchanged. *)
Lemma foldM_skip {S : Type} (body : Z -> S -> option S) (l : list Z) (s : S) :
  (forall i, In i l -> body i s = Some s) -> foldM body l s = Some s.
Proof.
  induction l as [|i l IH]; intros H; [reflexivity|].
  cbn [foldM]. rewrite (H i) by (left; reflexivity).
  cbn [bind]. apply IH. intros j Hj. apply H. right. exact Hj.
Qed.

(** ** What the display calls do *)

Lemma pixel_effect (d : ILI9341.t) (x y c : Z) :
  ILI9341.width (ILI9341.pixel d x y c) = ILI9341.width d /\
  ILI9341.height (ILI9341.pixel d x y c) = ILI9341.height d /\
  (ILI9341.calls (ILI9341.pixel d x y c)
     = ILI9341.calls d ++ [ILI9341.Call_pixel x y c] \/
   ILI9341.calls (ILI9341.pixel d x y c)
     = ILI9341.calls d
       ++ [ILI9341.Call_pixel x y c; ILI9341.Call_set_window x y x y]) /\
  (forall px py, (px, py) <> (x, y) ->
     ILI9341.gram (ILI9341.pixel d x y c) px py = ILI9341.gram d px py).
Proof.
  unfold ILI9341.pixel, ILI9341.write_window, ILI9341.record. simpl.
  destruct (negb _); simpl.
  - repeat split; auto.
  - repeat split; auto.
    + right. rewrite <- app_assoc. reflexivity.
    + intros px py Hne.
      destruct ((x <=? px) && (px <=? x) && (y <=? py) && (py <=? y)) eqn:E;
        [|reflexivity].
      exfalso. apply Hne.
      repeat rewrite andb_true_iff in E. repeat rewrite Z.leb_le in E.
      f_equal; lia.
Qed.

(** [fill] covers the whole addressable surface. *)
Lemma fill_effect (d : ILI9341.t) (c : Z) :
  ILI9341.width (ILI9341.fill d c) = ILI9341.width d /\
  ILI9341.height (ILI9341.fill d c) = ILI9341.height d /\
  (exists x0 y0 x1 y1,
     ILI9341.calls (ILI9341.fill d c)
       = ILI9341.calls d
         ++ [ILI9341.Call_fill c; ILI9341.Call_set_window x0 y0 x1 y1]) /\
  (forall px py,
     0 <= px < ILI9341.width d -> 0 <= py < ILI9341.height d ->
     ILI9341.gram (ILI9341.fill d c) px py = ILI9341.pack_H c).
Proof.
  unfold ILI9341.fill, ILI9341.fill_rectangle, ILI9341.write_window,
    ILI9341.record. simpl.
  repeat split; auto.
  - do 4 eexists. rewrite <- app_assoc. reflexivity.
  - intros px py Hx Hy.
    match goal with |- (if ?b then _ else _) = _ => assert (b = true) as -> end;
      [|reflexivity].
    repeat rewrite andb_true_iff. repeat rewrite Z.leb_le. lia.
Qed.

Lemma cell_target_inj (landscape : bool) (x y width r c r' c' : Z) :
  cell_target landscape x y width r c = cell_target landscape x y width r' c' ->
  r = r' /\ c = c'.
Proof.
  unfold cell_target. destruct landscape; intros H; injection H; lia.
Qed.

Section Glyph.

Variables (fnt : bytearray) (offset width height : Z) (landscape : bool).
Variables (x y color : Z) (bgcolor : option Z) (d0 : ILI9341.t).

Local Abbreviation paints :=
  (paints fnt offset width height landscape x y color bgcolor).
Local Abbreviation glyph_inv :=
  (glyph_inv fnt offset width height landscape x y color bgcolor d0).

Lemma glyph_inv_init : glyph_inv d0.
Proof.
  repeat split; auto.
  exists []. split; [symmetry; apply app_nil_r | intros e []].
Qed.

Lemma glyph_inv_pixel (d : ILI9341.t) (px py c : Z) :
  glyph_inv d -> paints px py c -> glyph_inv (ILI9341.pixel d px py c).
Proof.
  intros (Hw & Hh & (evs & Hc & Hev) & Hg) Hp.
  destruct (pixel_effect d px py c) as (Pw & Ph & Pc & Pg).
  split; [congruence|]. split; [congruence|]. split.
  - destruct Pc as [Pc|Pc]; rewrite Pc, Hc, <- app_assoc;
      eexists; (split; [reflexivity|]); intros e He;
      apply in_app_or in He; destruct He as [He|He]; auto;
      exists px, py, c; (split; [exact Hp|]); simpl in He; intuition.
  - intros qx qy.
    destruct (Z.eq_dec qx px) as [->|Nx].
    + destruct (Z.eq_dec qy py) as [->|Ny]; [right; exists c; exact Hp|].
      rewrite Pg by congruence. apply Hg.
    + rewrite Pg by congruence. apply Hg.
Qed.

(** One cell: the body shared by the two inner loops. *)
Lemma glyph_inv_cell (d : ILI9341.t) (row col b : Z) :
  0 <= row < height -> 0 <= col < width ->
  cell_bit fnt offset width height landscape row col
    = Some (negb (Z.land b (Z.shiftl 1 ((if landscape then col else row) mod 8))
                  =? 0)) ->
  glyph_inv d ->
  glyph_inv
    (Writer.draw_cell d b (Z.shiftl 1 ((if landscape then col else row) mod 8))
       (fst (cell_target landscape x y width row col))
       (snd (cell_target landscape x y width row col)) color bgcolor).
Proof.
  intros Hr Hc Hbit Hinv. unfold Writer.draw_cell.
  assert (forall c,
            cell_color fnt offset width height landscape color bgcolor row col
              = Some c ->
            paints (fst (cell_target landscape x y width row col))
              (snd (cell_target landscape x y width row col)) c) as Hp.
  { intros c Hcol. exists row, col. repeat split; try lia; [|exact Hcol].
    destruct (cell_target _ _ _ _ _ _); reflexivity. }
  unfold cell_color in Hp. rewrite Hbit in Hp.
  destruct (negb _).
  - apply glyph_inv_pixel; [exact Hinv | apply Hp; reflexivity].
  - pose proof (fun bg E => glyph_inv_pixel d _ _ bg Hinv (Hp bg E)) as K.
    destruct bgcolor as [bg|]; [apply K; reflexivity | exact Hinv].
Qed.

End Glyph.

(** ** What [draw_char] does *)

Lemma get_char_addr_nonzero (font : bytearray) (letter a : Z) :
  _get_char_addr font letter = Some a -> (a =? 0) = false.
Proof.
  intros H. destruct (get_char_addr_base _ _ _ H) as (b & o & _ & ? & ? & ->).
  apply Z.eqb_neq. lia.
Qed.

(** [draw_char] returns the byte at the resolved address, and its writes are
    those of the cells of the glyph. *)
Lemma draw_char_effect (char_code x y : Z) (d : ILI9341.t) (fnt : bytearray)
  (color : Z) (bgcolor : option Z) (landscape reverse : bool)
  (d' : ILI9341.t) (r : Writer.draw_result) :
  Writer.draw_char char_code x y d fnt color bgcolor landscape reverse
    = Some (d', r) ->
  exists a width height,
    _get_char_addr fnt char_code = Some a /\
    fnt.[a] = Some width /\
    fnt.[_HEIGHT] = Some height /\
    r = Writer.RetWidth width /\
    glyph_inv fnt (a + 1) width height landscape x y color bgcolor d d'.
Proof.
  unfold Writer.draw_char. intros H.
  bind_inv H. rename v into height, E into Hh.
  bind_inv H. rename v into a, E into Ha.
  rewrite (get_char_addr_nonzero _ _ _ Ha) in H.
  bind_inv H. rename v into width, E into Hw.
  bind_inv H. injection H as <- <-.
  exists a, width, height. repeat (split; [assumption || reflexivity|]).
  destruct landscape.
  - revert E. apply foldM_inv; [|apply glyph_inv_init].
    intros row t t' Hrow Ht. apply foldM_inv; [|exact Ht].
    intros col u u' Hcol Hu Hb.
    apply bind_Some in Hb. destruct Hb as [b [Eb Hb]]. injection Hb as <-.
    apply In_range in Hrow, Hcol.
    apply (glyph_inv_cell fnt (a + 1) width height true x y color bgcolor d
             u row col b Hrow Hcol); [|exact Hu].
    unfold cell_bit. rewrite Eb. reflexivity.
  - revert E. apply foldM_inv; [|apply glyph_inv_init].
    intros row t t' Hrow Ht. apply foldM_inv; [|exact Ht].
    intros col u u' Hcol Hu Hb.
    apply bind_Some in Hb. destruct Hb as [b [Eb Hb]]. injection Hb as <-.
    apply In_range in Hrow, Hcol.
    apply (glyph_inv_cell fnt (a + 1) width height false x y color bgcolor d
             u row col b Hrow Hcol); [|exact Hu].
    unfold cell_bit. rewrite Eb. reflexivity.
Qed.

(** A glyph whose width byte is 0 has no cell: nothing reaches the display. *)
Lemma draw_char_zero_width (char_code x y : Z) (d : ILI9341.t)
  (fnt : bytearray) (color : Z) (bgcolor : option Z)
  (landscape reverse : bool) (a height : Z) :
  fnt.[_HEIGHT] = Some height ->
  _get_char_addr fnt char_code = Some a ->
  fnt.[a] = Some 0 ->
  Writer.draw_char char_code x y d fnt color bgcolor landscape reverse
    = Some (d, Writer.RetWidth 0).
Proof.
  intros Hh Ha Hw. unfold Writer.draw_char.
  rewrite Hh. cbn [bind]. rewrite Ha. cbn [bind].
  rewrite (get_char_addr_nonzero _ _ _ Ha). rewrite Hw. cbn [bind].
  rewrite (range_nonpos 0) by lia.
  destruct landscape; rewrite foldM_skip; reflexivity.
Qed.

(** ** Widths *)

Lemma get_char_addr_reads (font : bytearray) (letter a : Z) :
  _get_char_addr font letter = Some a ->
  exists l m, font.[_LAST_CHAR] = Some l /\ font.[_MISSING] = Some m.
Proof.
  unfold _get_char_addr. intros H.
  apply bind_Some in H. destruct H as [base [_ H]].
  apply bind_Some in H. destruct H as [mode [_ H]].
  apply bind_Some in H. destruct H as [r [E H]].
  assert (exists m, (missing <- char_is_missing font letter ;;
                     if missing then font.[_MISSING] else Some letter)
                    = Some m /\ font.[_MISSING] = Some m) as [m [_ Hm]].
  { destruct (mode =? _TWO_BYTE_INDEX);
      apply bind_Some in E; destruct E as [b [Eb E]];
      apply bind_Some in E; destruct E as [m [Em _]];
      rewrite Eb; cbn [bind];
      rewrite (char_is_missing_true _ _ _ Eb) in Em |- *; eauto. }
  destruct r as [offset index].
  apply bind_Some in H. destruct H as [l [Hl _]].
  eauto.
Qed.

(** The width [_char_width] returns is the byte before the resolved
    address. *)
Lemma char_width_resolved (self : Writer.t) (char_code : Z) :
  Writer._char_width self char_code
  = (a <- _get_char_addr (Writer.font self) char_code ;;
     (Writer.font self).[a - 1]).
Proof.
  unfold Writer._char_width.
  destruct (_get_char_addr (Writer.font self) char_code) as [a|] eqn:Ha;
    [|reflexivity].
  cbn [bind]. rewrite (get_char_addr_nonzero _ _ _ Ha).
  destruct (get_char_addr_reads _ _ _ Ha) as (l & m & Hl & Hm).
  rewrite char_is_missing_always, Hl. cbn [bind]. rewrite Hm. cbn [bind].
  rewrite (get_char_addr_any _ m char_code), Ha. reflexivity.
Qed.

(** ** What a step keeps *)

Lemma same_settings_refl (a : Writer.t) : same_settings a a.
Proof. repeat split. Qed.

Lemma same_settings_trans (a b c : Writer.t) :
  same_settings a b -> same_settings b c -> same_settings a c.
Proof. unfold same_settings. intuition congruence. Qed.

Lemma wrap_text_settings (self : Writer.t) (width : Z) :
  same_settings self (Writer.wrap_text self width).
Proof.
  unfold Writer.wrap_text, Writer.clear_screen.
  destruct (_ >? _); [|apply same_settings_refl].
  cbn. destruct (_ >=? _); repeat split.
Qed.

Lemma render_char_settings (self self' : Writer.t) (char_code width : Z) :
  Writer.render_char self char_code width = Some self' ->
  same_settings self self'.
Proof.
  unfold Writer.render_char.
  destruct (_ <? 0).
  { intros H; injection H as <-. destruct (_ && _); repeat split. }
  destruct (_ >=? _).
  { intros H; injection H as <-. destruct (_ && _); repeat split. }
  intros H. apply bind_Some in H. destruct H as [[d r] [E H]].
  injection H as <-. cbn in E.
  apply draw_char_effect in E.
  destruct E as (a & w & h & _ & _ & _ & _ & Hw & Hh & _).
  repeat split; assumption.
Qed.

Lemma printchar_settings (self self' : Writer.t) (char_code : Z) :
  Writer._printchar self char_code = Some self' -> same_settings self self'.
Proof.
  unfold Writer._printchar. intros H.
  apply bind_Some in H. destruct H as [width [_ H]].
  destruct (width =? 0).
  - injection H as <-. apply same_settings_refl.
  - apply render_char_settings in H.
    eapply same_settings_trans; [apply wrap_text_settings | exact H].
Qed.

(** The width of a character does not depend on where the pen is. *)
Lemma char_width_settings (a b : Writer.t) (char_code : Z) :
  same_settings a b ->
  Writer._char_width b char_code = Writer._char_width a char_code.
Proof.
  intros (Hf & _). rewrite !char_width_resolved, Hf. reflexivity.
Qed.

Example writer_8x6_init (x y : Z) :
  writer_at (display_of 240 8 0) font_8x6 (Some 0) x y = Some (writer_8x6 x y).
Proof. reflexivity. Qed.

Example writer_empty_init :
  writer_at (display_of 240 320 0) font_empty (Some 0) 10 20
  = Some writer_empty.
Proof. reflexivity. Qed.

Example writer_wrap_init :
  writer_at (display_of 240 320 0) font_8x6 (Some 0) 238 16
  = Some writer_wrap.
Proof. reflexivity. Qed.

Example char_width_8x6 : Writer._char_width (writer_8x6 0 0) 65 = Some 6.
Proof. reflexivity. Qed.

Example char_width_empty : Writer._char_width writer_empty 65 = Some 0.
Proof. reflexivity. Qed.

(** ** Missing glyphs *)

(** C2: a code outside the range of the font resolves to the address the
    substitute code resolves to, without an exception, whatever the index
    mode.  The two bounds of the range are read at the same header byte, so
    no code is inside it and the substitute code needs no assumption. *)
Theorem missing_glyph_substitution (font : bytearray) (c m a : Z) :
  char_is_missing font c = Some true ->
  font.[_MISSING] = Some m ->
  _get_char_addr font m = Some a ->
  _get_char_addr font c = Some a.
Proof.
  intros _ _ Hm. rewrite (get_char_addr_any font c m). exact Hm.
Qed.

Lemma missing_glyph_substitution_witness :
  _get_char_addr font_one_byte 200 = Some 11 /\
  _get_char_addr font_two_byte 200 = Some 12.
Proof.
  split.
  - apply (missing_glyph_substitution font_one_byte 200 64 11); reflexivity.
  - apply (missing_glyph_substitution font_two_byte 200 64 12); reflexivity.
Defined.

(** ** The address is never 0 *)

(** C10: the address returned by [_get_char_addr] is at least
    [font[_MAX_CHARS] + 2], so it is not 0; [draw_char] then never returns
    at line 93 but returns the byte at that address, and a width of 0 from
    [_char_width] is the value of the byte before that address. *)
Theorem char_addr_never_zero (font : bytearray) (letter a : Z) :
  _get_char_addr font letter = Some a ->
  (exists base, font.[_MAX_CHARS] = Some base /\ base + 2 <= a) /\
  a <> 0 /\
  (forall x y d color bgcolor landscape reverse d' r,
     Writer.draw_char letter x y d font color bgcolor landscape reverse
       = Some (d', r) ->
     r <> Writer.RetTrue /\
     exists width, font.[a] = Some width /\ r = Writer.RetWidth width) /\
  (forall self,
     Writer.font self = font ->
     Writer._char_width self letter = Some 0 ->
     font.[a - 1] = Some 0).
Proof.
  intros Ha.
  destruct (get_char_addr_base _ _ _ Ha) as (base & offset & Hb & ? & ? & Ea).
  split; [exists base; split; [exact Hb | lia]|].
  split; [lia|]. split.
  - intros x y d color bgcolor landscape reverse d' r Hd.
    apply draw_char_effect in Hd.
    destruct Hd as (a' & w & h & Ha' & Hw & _ & -> & _).
    assert (a' = a) as -> by congruence.
    split; [discriminate | exists w; auto].
  - intros self <- Hw. rewrite char_width_resolved, Ha in Hw. exact Hw.
Qed.

Lemma char_addr_never_zero_witness :
  (exists base, font_empty.[_MAX_CHARS] = Some base /\ base + 2 <= 11) /\
  11 <> 0 /\
  font_empty.[11 - 1] = Some 0.
Proof.
  destruct (char_addr_never_zero font_empty 65 11) as (H1 & H2 & _ & H4);
    [reflexivity|].
  split; [exact H1|]. split; [exact H2|].
  apply (H4 writer_empty); reflexivity.
Defined.

(** ** Characters of width 0 *)

(** C9: a character whose width is 0 leaves the writer and its display as
    they were: no call reaches the display, the pen does not move, there is
    no wrap and no clear. *)
Theorem zero_width_char_is_nop (self : Writer.t) (char_code : Z) :
  Writer._char_width self char_code = Some 0 ->
  Writer._printchar self char_code = Some self.
Proof.
  intros H. unfold Writer._printchar. rewrite H. reflexivity.
Qed.

Lemma zero_width_char_is_nop_witness :
  Writer._printchar writer_empty 65 = Some writer_empty.
Proof.
  apply (zero_width_char_is_nop writer_empty 65). reflexivity.
Defined.

(** ** The width of a space *)

Lemma stringlen_single (self : Writer.t) (char_code : Z) :
  Writer.stringlen self [char_code] = Writer._char_width self char_code.
Proof.
  unfold Writer.stringlen. cbn [Writer.stringlen_from].
  destruct (Writer._char_width self char_code); reflexivity.
Qed.

(** X29: the flag [map_space] does not count: two writers on one font give
    every character the same width, the space included. *)
Theorem char_width_same_font (self self' : Writer.t) (char_code : Z) :
  Writer.font self' = Writer.font self ->
  Writer._char_width self' char_code = Writer._char_width self char_code.
Proof.
  intros Hf. rewrite !char_width_resolved, Hf. reflexivity.
Qed.

Lemma char_width_same_font_witness :
  Writer._char_width (writer_three_glyphs false) (Writer.ord " ")
  = Writer._char_width (writer_three_glyphs true) (Writer.ord " ").
Proof.
  apply (char_width_same_font (writer_three_glyphs true)
           (writer_three_glyphs false) (Writer.ord " ")).
  reflexivity.
Defined.

(** C8 at [font_three_glyphs].  By their own records the space is 0 wide,
    ['0'] 6 wide and ['?'] 5 wide, so a space should measure 6 with
    [map_space] and 0 without.  The code replaces every code by the
    substitute 63 and subtracts [font[7]] = 64 from it, reads the byte 1 at
    index 8 as the offset, and returns the directory byte at 10 as the
    width: 40 for the space and for ['0'], with [map_space] and without. *)
Theorem space_width_slip :
  intended_char_width font_three_glyphs false (Writer.ord " ") = Some 0 /\
  intended_char_width font_three_glyphs false (Writer.ord "0") = Some 6 /\
  intended_char_width font_three_glyphs false (Writer.ord "?") = Some 5 /\
  intended_char_width font_three_glyphs true (Writer.ord " ") = Some 6 /\
  _get_char_addr font_three_glyphs (Writer.ord " ") = Some 11 /\
  font_three_glyphs.[10] = Some 40 /\
  Writer._char_width (writer_three_glyphs true) (Writer.ord "0") = Some 40 /\
  Writer._char_width (writer_three_glyphs true) (Writer.ord " ") = Some 40 /\
  Writer.stringlen (writer_three_glyphs true) (Writer.str_of " ") = Some 40 /\
  Writer._char_width (writer_three_glyphs false) (Writer.ord " ") = Some 40 /\
  Writer.stringlen (writer_three_glyphs false) (Writer.str_of " ") = Some 40.
Proof.
  repeat split; vm_compute; reflexivity.
Qed.

(** ** Wrapping, clearing and drawing *)

(** When the glyph is not clipped it is drawn where the pen is, the pen
    advances by [width], and the display only receives further calls. *)
Lemma render_char_drawn (self self' : Writer.t) (char_code width : Z) :
  Writer.render_char self char_code width = Some self' ->
  0 <= Writer.y self + Writer.height self ->
  Writer.y self < ILI9341.height (Writer.device self) ->
  Writer.drawn self'
    = Writer.drawn self ++ [(char_code, Writer.x self, Writer.y self)] /\
  Writer.x self' = Writer.x self + width /\
  Writer.y self' = Writer.y self /\
  exists evs,
    ILI9341.calls (Writer.device self')
    = ILI9341.calls (Writer.device self) ++ evs.
Proof.
  unfold Writer.render_char. intros H Htop Hbot.
  destruct (_ <? 0) eqn:E1; [apply Z.ltb_lt in E1; lia|].
  destruct (_ >=? _) eqn:E2; [rewrite Z.geb_leb in E2; apply Z.leb_le in E2; lia|].
  apply bind_Some in H. destruct H as [[d r] [E H]].
  injection H as <-. cbn in E.
  apply draw_char_effect in E.
  destruct E as (a & w & h & _ & _ & _ & _ & _ & _ & (evs & Hc & _) & _).
  cbn. repeat split. exists evs. exact Hc.
Qed.

(** Clipped or not, at most one glyph is drawn, at the pen, the row of the
    pen is kept, and the display only receives further calls. *)
Lemma render_char_history (self self' : Writer.t) (char_code width : Z) :
  Writer.render_char self char_code width = Some self' ->
  (Writer.drawn self' = Writer.drawn self \/
   Writer.drawn self'
     = Writer.drawn self ++ [(char_code, Writer.x self, Writer.y self)]) /\
  Writer.y self' = Writer.y self /\
  exists evs,
    ILI9341.calls (Writer.device self')
    = ILI9341.calls (Writer.device self) ++ evs.
Proof.
  unfold Writer.render_char. intros H.
  destruct (_ <? 0).
  { injection H as <-.
    destruct (_ && _); cbn; (repeat split; auto);
      exists []; symmetry; apply app_nil_r. }
  destruct (_ >=? _).
  { injection H as <-.
    destruct (_ && _); cbn; (repeat split; auto);
      exists []; symmetry; apply app_nil_r. }
  apply bind_Some in H. destruct H as [[d r] [E H]].
  injection H as <-. cbn in E.
  apply draw_char_effect in E.
  destruct E as (a & w & h & _ & _ & _ & _ & _ & _ & (evs & Hc & _) & _).
  cbn. repeat split; auto. exists evs. exact Hc.
Qed.

Lemma printchar_unfold (self : Writer.t) (char_code width : Z) :
  Writer._char_width self char_code = Some width ->
  width <> 0 ->
  Writer._printchar self char_code
  = Writer.render_char (Writer.wrap_text self width) char_code width.
Proof.
  intros Hw Hn. unfold Writer._printchar. rewrite Hw. cbn [bind].
  apply Z.eqb_neq in Hn. rewrite Hn. reflexivity.
Qed.

(** C3: when the character does not fit on the line and the next line is
    below the screen, the display is filled with the background color (0
    when there is none) and the pen is set to (0, 0) before the clip tests
    and the drawing of the character: the fill precedes every call the glyph
    makes, and the glyph, if drawn, is drawn at (0, 0). *)
Theorem scroll_clear_law (self : Writer.t) (char_code width : Z) :
  Writer._char_width self char_code = Some width ->
  width <> 0 ->
  Writer.x self + width > ILI9341.width (Writer.device self) ->
  Writer.y self + Writer.height self >= ILI9341.height (Writer.device self) ->
  let cleared := Writer.wrap_text self width in
  Writer._printchar self char_code
    = Writer.render_char cleared char_code width /\
  Writer.x cleared = 0 /\ Writer.y cleared = 0 /\
  (forall px py,
     0 <= px < ILI9341.width (Writer.device self) ->
     0 <= py < ILI9341.height (Writer.device self) ->
     ILI9341.gram (Writer.device cleared) px py
       = ILI9341.pack_H (clear_color self)) /\
  (exists x0 y0 x1 y1,
     ILI9341.calls (Writer.device cleared)
     = ILI9341.calls (Writer.device self)
       ++ [ILI9341.Call_fill (clear_color self);
           ILI9341.Call_set_window x0 y0 x1 y1] /\
     forall self',
       Writer._printchar self char_code = Some self' ->
       (Writer.drawn self' = Writer.drawn self \/
        Writer.drawn self' = Writer.drawn self ++ [(char_code, 0, 0)]) /\
       (0 <= Writer.height self ->
        0 < ILI9341.height (Writer.device self) ->
        Writer.drawn self' = Writer.drawn self ++ [(char_code, 0, 0)] /\
        Writer.x self' = width /\ Writer.y self' = 0) /\
       exists evs,
         ILI9341.calls (Writer.device self')
         = ILI9341.calls (Writer.device self)
           ++ [ILI9341.Call_fill (clear_color self);
               ILI9341.Call_set_window x0 y0 x1 y1] ++ evs).
Proof.
  intros Hw Hn Hx Hy cleared.
  assert (cleared
          = Writer.clear_screen
              (Writer.set_xy self 0 (Writer.y self + Writer.height self)))
    as Ec.
  { unfold cleared, Writer.wrap_text.
    apply Z.gt_lt in Hx. apply Z.gtb_lt in Hx. rewrite Hx. cbn.
    apply Z.ge_le in Hy. apply Z.leb_le in Hy. rewrite Z.geb_leb, Hy.
    reflexivity. }
  split; [apply printchar_unfold; assumption|].
  rewrite Ec.
  pose proof (fill_effect (Writer.device self) (clear_color self))
    as (_ & _ & (x0 & y0 & x1 & y1 & Hc) & Hg).
  split; [reflexivity|]. split; [reflexivity|]. split; [exact Hg|].
  exists x0, y0, x1, y1. split; [exact Hc|].
  intros self' Hp.
  rewrite (printchar_unfold _ _ _ Hw Hn) in Hp. fold cleared in Hp.
  rewrite Ec in Hp.
  pose proof (render_char_history _ _ _ _ Hp) as (Hd & _ & evs & He).
  split; [exact Hd|]. split.
  - intros Hh HH. apply render_char_drawn in Hp; cbn; [|lia|lia].
    destruct Hp as (Hd' & Hx' & Hy' & _). auto.
  - exists evs. rewrite He. cbn. unfold clear_color in Hc. cbn in Hc.
    unfold clear_color. rewrite Hc, <- app_assoc. reflexivity.
Qed.

Lemma scroll_clear_law_witness :
  Writer.x (Writer.wrap_text (writer_8x6 238 0) 6) = 0 /\
  Writer.y (Writer.wrap_text (writer_8x6 238 0) 6) = 0 /\
  ILI9341.gram (Writer.device (Writer.wrap_text (writer_8x6 238 0) 6)) 239 7
  = ILI9341.pack_H 0 /\
  forall self',
    Writer._printchar (writer_8x6 238 0) 65 = Some self' ->
    Writer.drawn self' = [(65, 0, 0)].
Proof.
  destruct (scroll_clear_law (writer_8x6 238 0) 65 6)
    as (_ & Hx & Hy & Hg & (x0 & y0 & x1 & y1 & _ & Hp)).
  - reflexivity.
  - lia.
  - cbn. lia.
  - cbn. lia.
  - split; [exact Hx|]. split; [exact Hy|].
    split; [apply Hg; cbn; lia|].
    intros self' H. destruct (Hp self' H) as (_ & Hd & _).
    apply Hd; cbn; lia.
Defined.

(** The three ways through lines 222-228. *)
Lemma wrap_text_fits (self : Writer.t) (width : Z) :
  Writer.x self + width <= ILI9341.width (Writer.device self) ->
  Writer.wrap_text self width = self.
Proof.
  intros H. unfold Writer.wrap_text.
  destruct (_ >? _) eqn:E; [|reflexivity].
  apply Z.gtb_lt in E. lia.
Qed.

Lemma wrap_text_wrap (self : Writer.t) (width : Z) :
  Writer.x self + width > ILI9341.width (Writer.device self) ->
  Writer.y self + Writer.height self < ILI9341.height (Writer.device self) ->
  Writer.wrap_text self width
  = Writer.set_xy self 0 (Writer.y self + Writer.height self).
Proof.
  intros Hx Hy. unfold Writer.wrap_text.
  apply Z.gt_lt in Hx. apply Z.gtb_lt in Hx. rewrite Hx. cbn.
  destruct (_ >=? _) eqn:E; [|reflexivity].
  rewrite Z.geb_leb in E. apply Z.leb_le in E. lia.
Qed.

Lemma wrap_text_clear (self : Writer.t) (width : Z) :
  Writer.x self + width > ILI9341.width (Writer.device self) ->
  Writer.y self + Writer.height self >= ILI9341.height (Writer.device self) ->
  Writer.wrap_text self width
  = Writer.clear_screen
      (Writer.set_xy self 0 (Writer.y self + Writer.height self)).
Proof.
  intros Hx Hy. unfold Writer.wrap_text.
  apply Z.gt_lt in Hx. apply Z.gtb_lt in Hx. rewrite Hx. cbn.
  apply Z.ge_le in Hy. apply Z.leb_le in Hy. rewrite Z.geb_leb, Hy.
  reflexivity.
Qed.

Lemma wrap_text_drawn (self : Writer.t) (width : Z) :
  Writer.drawn (Writer.wrap_text self width) = Writer.drawn self.
Proof.
  unfold Writer.wrap_text. destruct (_ >? _); [|reflexivity].
  cbn. destruct (_ >=? _); reflexivity.
Qed.

(** [__init__] takes the height of the writer from the font, and no step
    changes either. *)
Lemma init_height (d : ILI9341.t) (font : bytearray) (color : Z)
  (bgcolor : option Z) (verbose : bool) (self : Writer.t) :
  Writer.__init__ d font color bgcolor verbose = Some self ->
  (Writer.font self).[_HEIGHT] = Some (Writer.height self).
Proof.
  unfold Writer.__init__. intros H.
  apply bind_Some in H. destruct H as [h [Hh H]].
  apply bind_Some in H. destruct H as [mw [_ H]].
  injection H as <-. exact Hh.
Qed.

(** C4: when the character does not fit on the line and the next line is on
    the screen, the pen is at the start of the next line, one font height
    lower, before the clip tests and the drawing of the character; the
    glyph is then drawn there unless it is wholly above the screen. *)
Theorem wrap_law (self : Writer.t) (char_code width : Z) :
  Writer._char_width self char_code = Some width ->
  width <> 0 ->
  (Writer.font self).[_HEIGHT] = Some (Writer.height self) ->
  Writer.x self + width > ILI9341.width (Writer.device self) ->
  Writer.y self + Writer.height self < ILI9341.height (Writer.device self) ->
  let wrapped := Writer.wrap_text self width in
  Writer._printchar self char_code
    = Writer.render_char wrapped char_code width /\
  Writer.x wrapped = 0 /\
  Writer.y wrapped = Writer.y self + Writer.height self /\
  Writer.device wrapped = Writer.device self /\
  forall self',
    Writer._printchar self char_code = Some self' ->
    Writer.y self' = Writer.y self + Writer.height self /\
    (Writer.drawn self' = Writer.drawn self \/
     Writer.drawn self'
     = Writer.drawn self
       ++ [(char_code, 0, Writer.y self + Writer.height self)]) /\
    (0 <= Writer.y self + 2 * Writer.height self ->
     Writer.drawn self'
     = Writer.drawn self
       ++ [(char_code, 0, Writer.y self + Writer.height self)] /\
     Writer.x self' = width).
Proof.
  intros Hw Hn Hh Hx Hy wrapped.
  assert (wrapped = Writer.set_xy self 0 (Writer.y self + Writer.height self))
    as Ew by (apply wrap_text_wrap; assumption).
  split; [apply printchar_unfold; assumption|].
  rewrite Ew. repeat (split; [reflexivity|]).
  intros self' Hp.
  rewrite (printchar_unfold _ _ _ Hw Hn) in Hp. fold wrapped in Hp.
  rewrite Ew in Hp.
  pose proof (render_char_history _ _ _ _ Hp) as (Hd & Hy' & _).
  split; [exact Hy'|]. split; [exact Hd|].
  intros Htop.
  apply render_char_drawn in Hp; cbn; [|lia|lia].
  destruct Hp as (Hd' & Hx' & _). split; [exact Hd'|].
  rewrite Hx'. reflexivity.
Qed.

Lemma wrap_law_witness :
  Writer.x (Writer.wrap_text writer_wrap 6) = 0 /\
  Writer.y (Writer.wrap_text writer_wrap 6) = 24 /\
  forall self',
    Writer._printchar writer_wrap 65 = Some self' ->
    Writer.drawn self' = [(65, 0, 24)] /\ Writer.x self' = 6.
Proof.
  destruct (wrap_law writer_wrap 65 6) as (_ & Hx & Hy & _ & Hp).
  - reflexivity.
  - lia.
  - reflexivity.
  - cbn. lia.
  - cbn. lia.
  - split; [exact Hx|]. split; [exact Hy|].
    intros self' H. destruct (Hp self' H) as (_ & _ & Hd).
    apply Hd. cbn. lia.
Defined.

(** ** Printing "AB" at the right edge of a 240 x 8 screen *)

(** One character of non-zero width that is not clipped, seen from the
    writer [wrap_text] leaves. *)
Lemma printchar_step (self self' : Writer.t) (char_code width : Z) :
  Writer._char_width self char_code = Some width ->
  width <> 0 ->
  Writer._printchar self char_code = Some self' ->
  0 <= Writer.y (Writer.wrap_text self width) + Writer.height self ->
  Writer.y (Writer.wrap_text self width) < ILI9341.height (Writer.device self) ->
  Writer.drawn self'
  = Writer.drawn self
    ++ [(char_code, Writer.x (Writer.wrap_text self width),
         Writer.y (Writer.wrap_text self width))] /\
  Writer.x self' = Writer.x (Writer.wrap_text self width) + width /\
  Writer.y self' = Writer.y (Writer.wrap_text self width) /\
  (exists evs,
     ILI9341.calls (Writer.device self')
     = ILI9341.calls (Writer.device (Writer.wrap_text self width)) ++ evs) /\
  same_settings self self'.
Proof.
  intros Hw Hn Hp Htop Hbot.
  pose proof (printchar_settings _ _ _ Hp) as Hs.
  rewrite (printchar_unfold _ _ _ Hw Hn) in Hp.
  pose proof (wrap_text_settings self width)
    as (_ & _ & _ & _ & _ & _ & Hh & _ & _ & Hdh).
  apply render_char_drawn in Hp; [|rewrite Hh; exact Htop|rewrite Hdh; exact Hbot].
  destruct Hp as (Hd & Hx & Hy & Hc).
  rewrite wrap_text_drawn in Hd. auto.
Qed.

Lemma clear_screen_calls (self : Writer.t) :
  ILI9341.width (Writer.device self) = 240 ->
  ILI9341.height (Writer.device self) = 8 ->
  ILI9341.calls (Writer.device (Writer.clear_screen self))
  = ILI9341.calls (Writer.device self)
    ++ [ILI9341.Call_fill (clear_color self);
        ILI9341.Call_set_window 0 0 239 7].
Proof.
  intros Hw Hh. unfold Writer.clear_screen, clear_color. cbn.
  unfold ILI9341.fill, ILI9341.fill_rectangle, ILI9341.write_window,
    ILI9341.record. cbn. rewrite Hw, Hh. cbn.
  rewrite <- app_assoc. reflexivity.
Qed.

(** C5, as the code has it: with font height 8 and every glyph 6 wide on a
    240 x 8 screen, "AB" printed from (238, 0) has A, which does not fit
    (238 + 6 > 240), wrapped to the line at 8, below the screen: the screen
    is cleared, A is drawn at (0, 0) and B at (6, 0).  Printed from
    (234, 0), A is drawn at (234, 0) and it is B that wraps, clears the
    screen and is drawn at (0, 0). *)
Theorem scenario_AB (self self' : Writer.t) :
  Writer.height self = 8 ->
  ILI9341.width (Writer.device self) = 240 ->
  ILI9341.height (Writer.device self) = 8 ->
  Writer._char_width self (Writer.ord "A") = Some 6 ->
  Writer._char_width self (Writer.ord "B") = Some 6 ->
  Writer.y self = 0 ->
  Writer.printstring self (Writer.str_of "AB") = Some self' ->
  (Writer.x self = 238 ->
   Writer.drawn self'
   = Writer.drawn self ++ [(Writer.ord "A", 0, 0); (Writer.ord "B", 6, 0)] /\
   exists evs,
     ILI9341.calls (Writer.device self')
     = ILI9341.calls (Writer.device self)
       ++ [ILI9341.Call_fill (clear_color self);
           ILI9341.Call_set_window 0 0 239 7] ++ evs) /\
  (Writer.x self = 234 ->
   Writer.drawn self'
   = Writer.drawn self ++ [(Writer.ord "A", 234, 0); (Writer.ord "B", 0, 0)] /\
   exists evsA evsB,
     ILI9341.calls (Writer.device self')
     = ILI9341.calls (Writer.device self) ++ evsA
       ++ [ILI9341.Call_fill (clear_color self);
           ILI9341.Call_set_window 0 0 239 7] ++ evsB).
Proof.
  intros Hh HW HH HA HB Hy Hp.
  change (Writer.str_of "AB") with [Writer.ord "A"; Writer.ord "B"] in Hp.
  cbn [Writer.printstring] in Hp.
  apply bind_Some in Hp. destruct Hp as [s1 [H1 Hp]].
  apply bind_Some in Hp. destruct Hp as [s2 [H2 Hp]].
  injection Hp as <-.
  pose proof (printchar_settings _ _ _ H1) as S1.
  pose proof S1 as (_ & _ & Sbg & _ & _ & _ & Sh & _ & SW & SH).
  rewrite <- (char_width_settings _ _ _ S1) in HB.
  split; intros Hx.
  - (* A wraps and clears *)
    assert (Writer.wrap_text self 6
            = Writer.clear_screen
                (Writer.set_xy self 0 (Writer.y self + Writer.height self)))
      as E1 by (apply wrap_text_clear; lia).
    destruct (printchar_step _ _ _ _ HA ltac:(lia) H1) as (D1 & X1 & Y1 & C1 & _).
    { rewrite E1. cbn. lia. }
    { rewrite E1. cbn. lia. }
    rewrite E1 in D1, X1, Y1, C1. cbn in D1, X1, Y1.
    destruct C1 as (evs1 & C1).
    rewrite clear_screen_calls in C1 by (cbn; assumption).
    cbn in C1.
    assert (Writer.wrap_text s1 6 = s1) as E2 by (apply wrap_text_fits; lia).
    destruct (printchar_step _ _ _ _ HB ltac:(lia) H2) as (D2 & _ & _ & C2 & _).
    { rewrite E2. lia. }
    { rewrite E2. lia. }
    rewrite E2, X1, Y1 in D2. rewrite E2 in C2.
    destruct C2 as (evs2 & C2).
    split.
    + rewrite D2, D1, <- app_assoc. reflexivity.
    + exists (evs1 ++ evs2). rewrite C2, C1.
      unfold clear_color. cbn. rewrite <- !app_assoc. reflexivity.
  - (* A fits, B wraps and clears *)
    assert (Writer.wrap_text self 6 = self) as E1
      by (apply wrap_text_fits; lia).
    destruct (printchar_step _ _ _ _ HA ltac:(lia) H1) as (D1 & X1 & Y1 & C1 & _).
    { rewrite E1. lia. }
    { rewrite E1. lia. }
    rewrite E1 in D1, X1, Y1, C1. destruct C1 as (evs1 & C1).
    assert (Writer.wrap_text s1 6
            = Writer.clear_screen
                (Writer.set_xy s1 0 (Writer.y s1 + Writer.height s1)))
      as E2 by (apply wrap_text_clear; lia).
    destruct (printchar_step _ _ _ _ HB ltac:(lia) H2) as (D2 & _ & _ & C2 & _).
    { rewrite E2. cbn. lia. }
    { rewrite E2. cbn. lia. }
    rewrite E2 in D2, C2. cbn in D2. destruct C2 as (evs2 & C2).
    rewrite clear_screen_calls in C2 by (cbn; congruence).
    cbn in C2.
    split.
    + rewrite D2, D1, Hx, Hy, <- app_assoc. reflexivity.
    + exists evs1, evs2. rewrite C2, C1.
      unfold clear_color. cbn. rewrite Sbg, <- !app_assoc. reflexivity.
Qed.

Example printstring_AB_238 :
  Writer.printstring (writer_8x6 238 0) (Writer.str_of "AB")
  = Some (after_AB 238).
Proof. vm_compute. reflexivity. Qed.

Example printstring_AB_234 :
  Writer.printstring (writer_8x6 234 0) (Writer.str_of "AB")
  = Some (after_AB 234).
Proof. vm_compute. reflexivity. Qed.

Lemma scenario_AB_witness :
  Writer.drawn (after_AB 238) = [(65, 0, 0); (66, 6, 0)] /\
  Writer.drawn (after_AB 234) = [(65, 234, 0); (66, 0, 0)].
Proof.
  split.
  - destruct (scenario_AB (writer_8x6 238 0) (after_AB 238)
                eq_refl eq_refl eq_refl eq_refl eq_refl eq_refl
                printstring_AB_238) as [H _].
    destruct H as [H _]; [reflexivity | exact H].
  - destruct (scenario_AB (writer_8x6 234 0) (after_AB 234)
                eq_refl eq_refl eq_refl eq_refl eq_refl eq_refl
                printstring_AB_234) as [_ H].
    destruct H as [H _]; [reflexivity | exact H].
Defined.

(** C5 as stated fails: from (238, 0) the character drawn at (0, 0) after
    the clear is A; B is drawn once, at (6, 0). *)
Lemma scenario_AB_counterexample :
  Writer.height (writer_8x6 238 0) = 8 /\
  Writer._char_width (writer_8x6 238 0) (Writer.ord "A") = Some 6 /\
  Writer._char_width (writer_8x6 238 0) (Writer.ord "B") = Some 6 /\
  ~ (forall self',
       Writer.printstring (writer_8x6 238 0) (Writer.str_of "AB") = Some self' ->
       In (Writer.ord "B", 0, 0) (Writer.drawn self')).
Proof.
  repeat (split; [reflexivity|]).
  intros H. specialize (H _ printstring_AB_238).
  assert (Writer.drawn (after_AB 238) = [(65, 0, 0); (66, 6, 0)]) as E
    by (vm_compute; reflexivity).
  rewrite E in H. cbn in H.
  destruct H as [H|[H|[]]]; discriminate H.
Qed.

(** ** Transparent background *)

(** X28: without a background color, a cell for which the test of
    [draw_char] itself ([cell_bit], lines 101 and 108) finds no bit causes
    no call for its pixel, which keeps the value it had, in both
    orientations; every pixel call of the glyph carries the text color. *)
Theorem transparent_background (char_code x y : Z) (d d' : ILI9341.t)
  (fnt : bytearray) (color : Z) (landscape reverse : bool)
  (r : Writer.draw_result) (a width height row col : Z) :
  Writer.draw_char char_code x y d fnt color None landscape reverse
    = Some (d', r) ->
  _get_char_addr fnt char_code = Some a ->
  fnt.[a] = Some width ->
  fnt.[_HEIGHT] = Some height ->
  0 <= row < height ->
  0 <= col < width ->
  cell_bit fnt (a + 1) width height landscape row col = Some false ->
  let '(px, py) := cell_target landscape x y width row col in
  ILI9341.gram d' px py = ILI9341.gram d px py /\
  exists evs,
    ILI9341.calls d' = ILI9341.calls d ++ evs /\
    (forall c, ~ In (ILI9341.Call_pixel px py c) evs) /\
    ~ In (ILI9341.Call_set_window px py px py) evs /\
    (forall qx qy c, In (ILI9341.Call_pixel qx qy c) evs -> c = color).
Proof.
  intros Hd Ha Hw Hh Hr Hc Hbit.
  apply draw_char_effect in Hd.
  destruct Hd as (a' & w' & h' & Ha' & Hw' & Hh' & _ & _ & _ & Hev & Hg).
  assert (a' = a) as -> by congruence.
  assert (w' = width) as -> by congruence.
  assert (h' = height) as -> by congruence.
  destruct (cell_target landscape x y width row col) as [px py] eqn:Et.
  assert (forall c, ~ paints fnt (a + 1) width height landscape x y color None
                      px py c) as Hnp.
  { intros c (row' & col' & _ & _ & Et' & Hcol).
    rewrite <- Et in Et'. apply cell_target_inj in Et'.
    destruct Et' as [-> ->]. unfold cell_color in Hcol.
    rewrite Hbit in Hcol. discriminate. }
  split.
  - destruct (Hg px py) as [E|[c Hp]]; [exact E | destruct (Hnp c Hp)].
  - destruct Hev as (evs & Hcalls & Hev). exists evs.
    split; [exact Hcalls|]. split; [|split].
    + intros c Hin. destruct (Hev _ Hin) as (qx & qy & c' & Hp & [E|E]);
        [|discriminate]. injection E as <- <- <-. exact (Hnp _ Hp).
    + intros Hin. destruct (Hev _ Hin) as (qx & qy & c' & Hp & [E|E]);
        [discriminate|]. injection E as <- <-. exact (Hnp _ Hp).
    + intros qx qy c Hin.
      destruct (Hev _ Hin) as (qx' & qy' & c' & Hp & [E|E]); [|discriminate].
      injection E as <- <- <-.
      destruct Hp as (row' & col' & _ & _ & _ & Hcol).
      unfold cell_color in Hcol.
      destruct (cell_bit fnt (a + 1) width height landscape row' col')
        as [[|]|]; congruence.
Qed.

Example draw_on_red (landscape : bool) :
  Writer.draw_char 65 10 10 red_screen font_5x7 1 None landscape false
  = Some (drawn_on_red landscape, Writer.RetWidth 5).
Proof. destruct landscape; vm_compute; reflexivity. Qed.

Lemma transparent_background_witness :
  ILI9341.gram (drawn_on_red false) 10 11 = 63488 /\
  ILI9341.gram (drawn_on_red true) 11 13 = 63488.
Proof.
  split.
  - apply (transparent_background 65 10 10 red_screen (drawn_on_red false)
             font_5x7 1 false false (Writer.RetWidth 5) 11 5 7 1 0
             (draw_on_red false) eq_refl eq_refl eq_refl).
    + lia.
    + lia.
    + reflexivity.
  - apply (transparent_background 65 10 10 red_screen (drawn_on_red true)
             font_5x7 1 true false (Writer.RetWidth 5) 11 5 7 1 1
             (draw_on_red true) eq_refl eq_refl eq_refl).
    + lia.
    + lia.
    + reflexivity.
Defined.

(** C7 at [font_5x7], drawn at (10, 10) on a red screen without a
    background color.  The first data byte is 1 and the others 0, so packed
    bit 0 is the only one set.  Upright, the cell (row 0, col 1) has the
    packed index [1 * 7 + 0 = 7], an unset bit, but line 108 tests bit
    [0 mod 8] of that byte and the pixel (11, 10) is written.  In landscape
    the cell (row 1, col 0), of packed index [1 * 5 + 0 = 5], is written at
    (11, 14) the same way. *)
Theorem transparent_background_slip :
  font_5x7.[12] = Some 1 /\
  spec_packed_bit font_5x7 12 (1 * 7 + 0) = Some false /\
  cell_target false 10 10 5 0 1 = (11, 10) /\
  ILI9341.gram red_screen 11 10 = 63488 /\
  option_map (fun r => ILI9341.gram (fst r) 11 10)
    (Writer.draw_char 65 10 10 red_screen font_5x7 1 None false false)
  = Some 1 /\
  spec_packed_bit font_5x7 12 (1 * 5 + 0) = Some false /\
  cell_target true 10 10 5 1 0 = (11, 14) /\
  ILI9341.gram red_screen 11 14 = 63488 /\
  option_map (fun r => ILI9341.gram (fst r) 11 14)
    (Writer.draw_char 65 10 10 red_screen font_5x7 1 None true false)
  = Some 1.
Proof.
  repeat split; vm_compute; reflexivity.
Qed.

(** ** The width drawn and the width advanced *)

Example writer_one_byte_init :
  writer_at (display_of 240 320 0) font_one_byte (Some 0) 0 0
  = Some writer_one_byte.
Proof. reflexivity. Qed.

(** C1 at [font_one_byte]: the address resolved for 'A' is 11; [draw_char]
    returns the byte at 11, which is 5, and draws 5 columns, while
    [_printchar] advances the pen by the byte at 10, which is 6. *)
Theorem draw_width_differs_from_advance :
  _get_char_addr font_one_byte 65 = Some 11 /\
  font_one_byte.[11] = Some 5 /\
  font_one_byte.[10] = Some 6 /\
  option_map snd
    (Writer.draw_char 65 0 0 (display_of 240 320 0) font_one_byte 1 (Some 0)
       false false)
  = Some (Writer.RetWidth 5) /\
  Writer._char_width writer_one_byte 65 = Some 6 /\
  option_map Writer.x (Writer._printchar writer_one_byte 65) = Some 6 /\
  option_map Writer.drawn (Writer._printchar writer_one_byte 65)
  = Some [(65, 0, 0)].
Proof.
  repeat split; vm_compute; reflexivity.
Qed.

(** In general the two widths are the bytes at and before the resolved
    address. *)
Lemma draw_and_advance_bytes (self self' : Writer.t) (char_code width : Z)
  (d : ILI9341.t) (r : Writer.draw_result) :
  Writer._char_width self char_code = Some width ->
  Writer.draw_char char_code (Writer.x self) (Writer.y self)
    (Writer.device self) (Writer.font self) (Writer.text_color self)
    (Writer.bgcolor self) (Writer.landscape self) (Writer.reverse self)
  = Some (d, r) ->
  exists a drawn_width,
    _get_char_addr (Writer.font self) char_code = Some a /\
    (Writer.font self).[a - 1] = Some width /\
    (Writer.font self).[a] = Some drawn_width /\
    r = Writer.RetWidth drawn_width.
Proof.
  intros Hw Hd. apply draw_char_effect in Hd.
  destruct Hd as (a & w & h & Ha & Hwa & _ & -> & _).
  rewrite char_width_resolved, Ha in Hw.
  exists a, w. auto.
Qed.

(** ** Landscape cells *)

(** In landscape the code takes the byte of the packed index
    [row * width + col] and, in it, the bit [col mod 8]. *)
Lemma cell_bit_landscape (fnt : bytearray) (offset width height row col : Z) :
  cell_bit fnt offset width height true row col
  = (b <- fnt.[offset + (row * width + col) / 8] ;;
     Some (Z.testbit b (col mod 8))).
Proof.
  unfold cell_bit.
  destruct (fnt.[offset + (row * width + col) / 8]) as [b|]; [|reflexivity].
  cbn [bind]. f_equal.
  assert (0 <= col mod 8 < 8) as Hm by (apply Z.mod_pos_bound; lia).
  rewrite Z.shiftl_1_l.
  destruct (Z.testbit b (col mod 8)) eqn:Eb.
  - destruct (Z.land b (2 ^ (col mod 8)) =? 0) eqn:E; [|reflexivity].
    apply Z.eqb_eq in E.
    assert (Z.testbit (Z.land b (2 ^ (col mod 8))) (col mod 8) = true) as T.
    { rewrite Z.land_spec, Eb, Z.pow2_bits_true by lia. reflexivity. }
    rewrite E, Z.bits_0 in T. discriminate.
  - assert (Z.land b (2 ^ (col mod 8)) = 0) as ->; [|reflexivity].
    apply Z.bits_inj'. intros n Hn.
    rewrite Z.land_spec, Z.bits_0.
    destruct (Z.eq_dec n (col mod 8)) as [->|Ne].
    + rewrite Eb. reflexivity.
    + rewrite Z.pow2_bits_false by lia. apply andb_false_r.
Qed.

(** C6 at [font_5x7], drawn in landscape at (10, 10) without a background
    color.  The first data byte is 1 and the others 0, so packed bit 0 is
    the only one set.  The cell (0, 0) goes to the pixel (10, 14); the cell
    (1, 0), of packed index [1 * 5 + 0 = 5], an unset bit, is tested on bit
    [0 mod 8] of the same byte and is drawn too, at (11, 14). *)
Theorem landscape_bit_index_slip :
  font_5x7.[12] = Some 1 /\
  spec_packed_bit font_5x7 12 (0 * 5 + 0) = Some true /\
  spec_packed_bit font_5x7 12 (1 * 5 + 0) = Some false /\
  cell_bit font_5x7 12 5 7 true 1 0 = Some true /\
  cell_target true 10 10 5 0 0 = (10, 14) /\
  cell_target true 10 10 5 1 0 = (11, 14) /\
  option_map (fun r => ILI9341.calls (fst r))
    (Writer.draw_char 65 10 10 (display_of 240 320 0) font_5x7 1 None
       true false)
  = Some [ILI9341.Call_pixel 10 14 1; ILI9341.Call_set_window 10 14 10 14;
          ILI9341.Call_pixel 11 14 1; ILI9341.Call_set_window 11 14 11 14].
Proof.
  repeat split; vm_compute; reflexivity.
Qed.

(** * Further properties of the code *)

(** ** ds3231.py: binary coded decimal *)

Lemma bcd_to_dec_inv (n : Z) : DS3231.bcd_to_dec (DS3231.dec_to_bcd n) = n.
Proof.
  unfold DS3231.bcd_to_dec, DS3231.dec_to_bcd.
  pose proof (Z.mod_pos_bound n 10 ltac:(lia)) as Hm.
  pose proof (Z.div_mod n 10 ltac:(lia)) as Hd.
  assert ((n / 10 * 16 + n mod 10) / 16 = n / 10) as ->.
  { rewrite Z.div_add_l by lia. rewrite (Z.div_small (n mod 10)) by lia. lia. }
  assert ((n / 10 * 16 + n mod 10) mod 16 = n mod 10) as ->.
  { rewrite Z.add_comm, Z.mod_add by lia. apply Z.mod_small. lia. }
  lia.
Qed.

(** X1: decoding what [dec_to_bcd] encodes gives the number back, for every
    integer. *)
Theorem bcd_to_dec_dec_to_bcd (n : Z) :
  DS3231.bcd_to_dec (DS3231.dec_to_bcd n) = n.
Proof. exact (bcd_to_dec_inv n). Qed.

(** X2: encoding what [bcd_to_dec] decodes gives the byte back exactly when
    its low nibble is a decimal digit; otherwise the result is 6 more. *)
Theorem dec_to_bcd_bcd_to_dec (b : Z) :
  DS3231.dec_to_bcd (DS3231.bcd_to_dec b)
  = if b mod 16 <? 10 then b else b + 6.
Proof.
  unfold DS3231.bcd_to_dec, DS3231.dec_to_bcd.
  pose proof (Z.mod_pos_bound b 16 ltac:(lia)) as Hm.
  pose proof (Z.div_mod b 16 ltac:(lia)) as Hd.
  destruct (b mod 16 <? 10) eqn:E.
  - apply Z.ltb_lt in E.
    assert ((b / 16 * 10 + b mod 16) / 10 = b / 16) as ->.
    { rewrite Z.div_add_l by lia.
      rewrite (Z.div_small (b mod 16)) by lia. lia. }
    assert ((b / 16 * 10 + b mod 16) mod 10 = b mod 16) as ->.
    { rewrite Z.add_comm, Z.mod_add by lia. apply Z.mod_small. lia. }
    lia.
  - apply Z.ltb_ge in E.
    replace (b / 16 * 10 + b mod 16)
      with ((b mod 16 - 10) + (b / 16 + 1) * 10) by lia.
    rewrite Z.div_add, Z.mod_add by lia.
    rewrite (Z.div_small (b mod 16 - 10)), (Z.mod_small (b mod 16 - 10))
      by lia.
    lia.
Qed.

(** Two decimal digits fit the two nibbles of a byte. *)
Lemma dec_to_bcd_digits (n : Z) :
  0 <= n < 100 ->
  0 <= DS3231.dec_to_bcd n <= 153 /\
  DS3231.dec_to_bcd n / 16 = n / 10 /\
  DS3231.dec_to_bcd n mod 16 = n mod 10.
Proof.
  intros Hn. unfold DS3231.dec_to_bcd.
  pose proof (Z.mod_pos_bound n 10 ltac:(lia)) as Hm.
  assert (0 <= n / 10 <= 9) as Hq.
  { split; [apply Z.div_pos; lia|]. apply Z.lt_succ_r.
    apply Z.div_lt_upper_bound; lia. }
  split; [lia|]. split.
  - rewrite Z.div_add_l by lia. rewrite (Z.div_small (n mod 10)) by lia. lia.
  - rewrite Z.add_comm, Z.mod_add by lia. apply Z.mod_small. lia.
Qed.

(** X3: a number of two decimal digits is encoded in one byte whose two
    nibbles are its digits. *)
Theorem dec_to_bcd_two_digits (n : Z) :
  0 <= n < 100 ->
  0 <= DS3231.dec_to_bcd n <= 153 /\
  DS3231.dec_to_bcd n / 16 = n / 10 /\
  DS3231.dec_to_bcd n mod 16 = n mod 10.
Proof. exact (dec_to_bcd_digits n). Qed.

Lemma dec_to_bcd_two_digits_witness :
  0 <= DS3231.dec_to_bcd 59 <= 153 /\
  DS3231.dec_to_bcd 59 / 16 = 59 / 10 /\
  DS3231.dec_to_bcd 59 mod 16 = 59 mod 10.
Proof.
  apply (dec_to_bcd_two_digits 59). lia.
Defined.

(** ** ds3231.py: registers *)

(** A check made on every number below [n] holds of each of them. *)
Lemma forallb_range (P : Z -> bool) (n i : Z) :
  forallb P (range n) = true -> 0 <= i < n -> P i = true.
Proof.
  intros H Hi. rewrite forallb_forall in H. apply H. apply In_range. exact Hi.
Qed.

Lemma as_byte_Some (v : Z) : 0 <= v < 256 -> DS3231.as_byte v = Some v.
Proof.
  intros H. unfold DS3231.as_byte.
  destruct (0 <=? v) eqn:E1; [|apply Z.leb_gt in E1; lia].
  destruct (v <? 256) eqn:E2; [reflexivity | apply Z.ltb_ge in E2; lia].
Qed.

(** A mask of [k] low bits keeps a number below [2 ^ k]. *)
Lemma land_ones_range (v k : Z) :
  0 <= k -> 0 <= Z.land v (Z.ones k) < 2 ^ k.
Proof.
  intros Hk. rewrite Z.land_ones by exact Hk.
  apply Z.mod_pos_bound. apply Z.pow_pos_nonneg; lia.
Qed.

Lemma land_ones_small (v k : Z) :
  0 <= k -> 0 <= v < 2 ^ k -> Z.land v (Z.ones k) = v.
Proof.
  intros Hk Hv. rewrite Z.land_ones by exact Hk. apply Z.mod_small. exact Hv.
Qed.

(** Setting or clearing one of the eight bits of a byte gives a byte. *)
Lemma set_bit_byte (v bit : Z) :
  0 <= v < 256 -> 0 <= bit < 8 -> 0 <= Z.lor v (Z.shiftl 1 bit) < 256.
Proof.
  intros Hv Hb.
  assert (forallb (fun v => forallb (fun bit =>
            (0 <=? Z.lor v (Z.shiftl 1 bit))
            && (Z.lor v (Z.shiftl 1 bit) <? 256)) (range 8)) (range 256)
          = true) as H by (vm_compute; reflexivity).
  apply (forallb_range _ _ v) in H; [|exact Hv].
  apply (forallb_range _ _ bit) in H; [|exact Hb].
  apply andb_true_iff in H. destruct H as [H1 H2].
  apply Z.leb_le in H1. apply Z.ltb_lt in H2. lia.
Qed.

Lemma clear_bit_byte (v bit : Z) :
  0 <= v < 256 -> 0 <= bit < 8 ->
  0 <= Z.land v (Z.lnot (Z.shiftl 1 bit)) < 256.
Proof.
  intros Hv Hb.
  assert (forallb (fun v => forallb (fun bit =>
            (0 <=? Z.land v (Z.lnot (Z.shiftl 1 bit)))
            && (Z.land v (Z.lnot (Z.shiftl 1 bit)) <? 256)) (range 8))
            (range 256)
          = true) as H by (vm_compute; reflexivity).
  apply (forallb_range _ _ v) in H; [|exact Hv].
  apply (forallb_range _ _ bit) in H; [|exact Hb].
  apply andb_true_iff in H. destruct H as [H1 H2].
  apply Z.leb_le in H1. apply Z.ltb_lt in H2. lia.
Qed.

(** [_write_reg] of a byte changes that register and no other. *)
Lemma write_reg_effect (self : DS3231.t) (reg_addr v : Z) :
  0 <= v < 256 ->
  exists self',
    DS3231._write_reg self reg_addr v = Some self' /\
    DS3231.i2c self' reg_addr = v /\
    (forall r, r <> reg_addr -> DS3231.i2c self' r = DS3231.i2c self r) /\
    DS3231.buf7 self' = DS3231.buf7 self.
Proof.
  intros Hv. unfold DS3231._write_reg. rewrite (as_byte_Some v Hv).
  cbn [bind]. eexists. split; [reflexivity|].
  unfold DS3231.writeto_mem.
  cbn [DS3231.i2c DS3231.buf1 DS3231.buf7 List.length].
  split; [|split; [|reflexivity]].
  - match goal with |- (if ?c then _ else _) = _ => destruct c eqn:E end.
    + rewrite Z.sub_diag. reflexivity.
    + apply andb_false_iff in E. destruct E as [E|E];
        [apply Z.leb_gt in E | apply Z.ltb_ge in E]; cbn in E; lia.
  - intros r Hr.
    match goal with |- (if ?c then _ else _) = _ => destruct c eqn:E end;
      [|reflexivity].
    apply andb_true_iff in E. destruct E as [E1 E2].
    apply Z.leb_le in E1. apply Z.ltb_lt in E2. cbn in E2. lia.
Qed.

Lemma bit_mask_Some (bit : Z) :
  0 <= bit -> DS3231.bit_mask bit = Some (Z.shiftl 1 bit).
Proof.
  intros H. unfold DS3231.bit_mask.
  destruct (bit <? 0) eqn:E; [apply Z.ltb_lt in E; lia | reflexivity].
Qed.

Lemma set_bit_effect (self : DS3231.t) (reg_addr bit : Z) :
  0 <= DS3231.i2c self reg_addr < 256 -> 0 <= bit < 8 ->
  exists self',
    DS3231._set_bit self reg_addr bit = Some self' /\
    DS3231.i2c self' reg_addr
      = Z.lor (DS3231.i2c self reg_addr) (Z.shiftl 1 bit) /\
    (forall r, r <> reg_addr -> DS3231.i2c self' r = DS3231.i2c self r).
Proof.
  intros Hv Hb. unfold DS3231._set_bit, DS3231._read_reg. cbn.
  rewrite bit_mask_Some by lia. cbn [bind].
  destruct (write_reg_effect
              (DS3231.mk (DS3231.i2c self) (DS3231.i2c self reg_addr)
                 (DS3231.buf7 self))
              reg_addr (Z.lor (DS3231.i2c self reg_addr) (Z.shiftl 1 bit))
              (set_bit_byte _ _ Hv Hb))
    as (self' & Hw & Hr & Ho & _).
  exists self'. auto.
Qed.

Lemma clear_bit_effect (self : DS3231.t) (reg_addr bit : Z) :
  0 <= DS3231.i2c self reg_addr < 256 -> 0 <= bit < 8 ->
  exists self',
    DS3231._clear_bit self reg_addr bit = Some self' /\
    DS3231.i2c self' reg_addr
      = Z.land (DS3231.i2c self reg_addr) (Z.lnot (Z.shiftl 1 bit)) /\
    (forall r, r <> reg_addr -> DS3231.i2c self' r = DS3231.i2c self r) /\
    DS3231.buf7 self' = DS3231.buf7 self.
Proof.
  intros Hv Hb. unfold DS3231._clear_bit, DS3231._read_reg. cbn.
  rewrite bit_mask_Some by lia. cbn [bind].
  destruct (write_reg_effect
              (DS3231.mk (DS3231.i2c self) (DS3231.i2c self reg_addr)
                 (DS3231.buf7 self))
              reg_addr
              (Z.land (DS3231.i2c self reg_addr) (Z.lnot (Z.shiftl 1 bit)))
              (clear_bit_byte _ _ Hv Hb))
    as (self' & Hw & Hr & Ho & Hb7).
  exists self'. auto.
Qed.

(** The bits of a byte with one bit set, and with one bit cleared. *)
Lemma testbit_set (v bit j : Z) :
  0 <= bit -> 0 <= j ->
  Z.testbit (Z.lor v (Z.shiftl 1 bit)) j = Z.testbit v j || (j =? bit).
Proof.
  intros Hb Hj. rewrite Z.lor_spec, Z.shiftl_1_l, Z.pow2_bits_eqb by lia.
  rewrite (Z.eqb_sym bit j). reflexivity.
Qed.

Lemma testbit_clear (v bit j : Z) :
  0 <= bit -> 0 <= j ->
  Z.testbit (Z.land v (Z.lnot (Z.shiftl 1 bit))) j
  = Z.testbit v j && negb (j =? bit).
Proof.
  intros Hb Hj.
  rewrite Z.land_spec, Z.lnot_spec, Z.shiftl_1_l, Z.pow2_bits_eqb by lia.
  rewrite (Z.eqb_sym bit j). reflexivity.
Qed.

(** X4: on a register holding a byte, [_set_bit] with a bit number from 0 to
    7 succeeds, sets that bit, and leaves the other bits of the register and
    every other register as they were. *)
Theorem set_bit_sets_one_bit (self : DS3231.t) (reg_addr bit : Z) :
  0 <= DS3231.i2c self reg_addr < 256 ->
  0 <= bit < 8 ->
  exists self',
    DS3231._set_bit self reg_addr bit = Some self' /\
    (forall j, 0 <= j ->
       Z.testbit (DS3231.i2c self' reg_addr) j
       = Z.testbit (DS3231.i2c self reg_addr) j || (j =? bit)) /\
    (forall r, r <> reg_addr -> DS3231.i2c self' r = DS3231.i2c self r).
Proof.
  intros Hv Hb.
  destruct (set_bit_effect self reg_addr bit Hv Hb) as (self' & H & Hr & Ho).
  exists self'. split; [exact H|]. split; [|exact Ho].
  intros j Hj. rewrite Hr. apply testbit_set; lia.
Qed.

(** X5: on a register holding a byte, [_clear_bit] with a bit number from 0
    to 7 succeeds, clears that bit, and leaves the other bits of the register
    and every other register as they were. *)
Theorem clear_bit_clears_one_bit (self : DS3231.t) (reg_addr bit : Z) :
  0 <= DS3231.i2c self reg_addr < 256 ->
  0 <= bit < 8 ->
  exists self',
    DS3231._clear_bit self reg_addr bit = Some self' /\
    (forall j, 0 <= j ->
       Z.testbit (DS3231.i2c self' reg_addr) j
       = Z.testbit (DS3231.i2c self reg_addr) j && negb (j =? bit)) /\
    (forall r, r <> reg_addr -> DS3231.i2c self' r = DS3231.i2c self r).
Proof.
  intros Hv Hb.
  destruct (clear_bit_effect self reg_addr bit Hv Hb)
    as (self' & H & Hr & Ho & _).
  exists self'. split; [exact H|]. split; [|exact Ho].
  intros j Hj. rewrite Hr. apply testbit_clear; lia.
Qed.

Lemma rtc_memory_bytes : byte_memory rtc_memory.
Proof.
  intros r. unfold rtc_memory.
  destruct ((0 <=? r) && (r <? 19)) eqn:E; [|lia].
  apply andb_true_iff in E. destruct E as [E1 E2].
  apply Z.leb_le in E1. apply Z.ltb_lt in E2.
  assert (forallb (fun r => (0 <=? rtc_memory r) && (rtc_memory r <? 256))
            (range 19) = true) as H by (vm_compute; reflexivity).
  apply (forallb_range _ _ r) in H; [|lia].
  unfold rtc_memory in H.
  assert ((0 <=? r) && (r <? 19) = true) as Er
    by (apply andb_true_iff; split; [apply Z.leb_le | apply Z.ltb_lt]; lia).
  rewrite Er in H. apply andb_true_iff in H. destruct H as [H1 H2].
  apply Z.leb_le in H1. apply Z.ltb_lt in H2. lia.
Qed.

Lemma set_bit_sets_one_bit_witness :
  exists self',
    DS3231._set_bit rtc 14 5 = Some self' /\
    (forall j, 0 <= j ->
       Z.testbit (DS3231.i2c self' 14) j
       = Z.testbit (DS3231.i2c rtc 14) j || (j =? 5)) /\
    (forall r, r <> 14 -> DS3231.i2c self' r = DS3231.i2c rtc r).
Proof.
  apply (set_bit_sets_one_bit rtc 14 5); [apply rtc_memory_bytes | lia].
Defined.

Lemma clear_bit_clears_one_bit_witness :
  exists self',
    DS3231._clear_bit rtc 15 7 = Some self' /\
    (forall j, 0 <= j ->
       Z.testbit (DS3231.i2c self' 15) j
       = Z.testbit (DS3231.i2c rtc 15) j && negb (j =? 7)) /\
    (forall r, r <> 15 -> DS3231.i2c self' r = DS3231.i2c rtc r).
Proof.
  apply (clear_bit_clears_one_bit rtc 15 7); [apply rtc_memory_bytes | lia].
Defined.


(** ** ds3231.py: date and time *)

Lemma month_century_byte (b : Z) :
  0 <= b < 32 -> 0 <= Z.lor b 128 < 256 /\ Z.land (Z.lor b 128) 31 = b.
Proof.
  intros Hb.
  assert (forallb (fun b => (0 <=? Z.lor b 128) && (Z.lor b 128 <? 256)
                            && (Z.land (Z.lor b 128) 31 =? b)) (range 32)
          = true) as H by (vm_compute; reflexivity).
  apply (forallb_range _ _ b) in H; [|exact Hb].
  repeat rewrite andb_true_iff in H. destruct H as [[H1 H2] H3].
  apply Z.leb_le in H1. apply Z.ltb_lt in H2. apply Z.eqb_eq in H3. lia.
Qed.

(** What the setter leaves in the chip: registers 0 to 6 hold the encoded
    fields, the status register has lost its bit 7, nothing else changed. *)
Lemma datetime_set_effect (self : DS3231.t)
  (year month mday wday hour minute sec sub : Z) :
  0 <= DS3231.i2c self 15 < 256 ->
  exists self',
    DS3231.datetime self
      (Some (year, month, mday, wday, hour, minute, sec, sub))
    = Some (self', None) /\
    DS3231.i2c self' 0 = Z.land (DS3231.dec_to_bcd sec) 127 /\
    DS3231.i2c self' 1 = Z.land (DS3231.dec_to_bcd minute) 127 /\
    DS3231.i2c self' 2 = Z.land (DS3231.dec_to_bcd hour) 63 /\
    DS3231.i2c self' 3 = Z.land (DS3231.dec_to_bcd wday) 7 /\
    DS3231.i2c self' 4 = Z.land (DS3231.dec_to_bcd mday) 63 /\
    DS3231.i2c self' 5
      = (if year >=? 2100
         then Z.lor (Z.land (DS3231.dec_to_bcd month) 31) 128
         else Z.land (DS3231.dec_to_bcd month) 31) /\
    DS3231.i2c self' 6 = DS3231.dec_to_bcd (year mod 100) /\
    DS3231.i2c self' 15 = Z.land (DS3231.i2c self 15) (Z.lnot 128) /\
    (forall r, ~ 0 <= r <= 6 -> r <> 15 ->
       DS3231.i2c self' r = DS3231.i2c self r).
Proof.
  intros H15. unfold DS3231.datetime.
  pose proof (land_ones_range (DS3231.dec_to_bcd sec) 7 ltac:(lia)) as R0.
  pose proof (land_ones_range (DS3231.dec_to_bcd minute) 7 ltac:(lia)) as R1.
  pose proof (land_ones_range (DS3231.dec_to_bcd hour) 6 ltac:(lia)) as R2.
  pose proof (land_ones_range (DS3231.dec_to_bcd wday) 3 ltac:(lia)) as R3.
  pose proof (land_ones_range (DS3231.dec_to_bcd mday) 6 ltac:(lia)) as R4.
  pose proof (land_ones_range (DS3231.dec_to_bcd month) 5 ltac:(lia)) as R5.
  change (Z.ones 7) with 127 in *. change (Z.ones 6) with 63 in *.
  change (Z.ones 5) with 31 in *. change (Z.ones 3) with 7 in *.
  change (2 ^ 7) with 128 in *. change (2 ^ 6) with 64 in *.
  change (2 ^ 5) with 32 in *. change (2 ^ 3) with 8 in *.
  rewrite !as_byte_Some by lia. cbn [bind].
  set (b5 := if year >=? 2100
             then Z.lor (Z.land (DS3231.dec_to_bcd month) 31) 128
             else Z.land (DS3231.dec_to_bcd month) 31).
  assert ((if year >=? 2100
           then DS3231.as_byte (Z.lor (Z.land (DS3231.dec_to_bcd month) 31) 128)
           else Some (Z.land (DS3231.dec_to_bcd month) 31)) = Some b5) as ->.
  { unfold b5. destruct (year >=? 2100); [|reflexivity].
    apply as_byte_Some. apply month_century_byte. lia. }
  cbn [bind].
  assert (0 <= year mod 100 < 100) as Ry by (apply Z.mod_pos_bound; lia).
  pose proof (dec_to_bcd_digits _ Ry) as (R6 & _).
  rewrite as_byte_Some by lia. cbn [bind].
  match goal with
  | |- exists self', (s <- DS3231._clear_bit ?m _ _ ;; _) = _ /\ _ =>
      destruct (clear_bit_effect m 15 7) as (self1 & Hc & H15' & Ho & _);
        [exact H15 | lia |]
  end.
  exists self1. unfold DS3231.DS3231_REG_STATUS. rewrite Hc. cbn [bind].
  split; [reflexivity|].
  repeat (split; [rewrite Ho by lia; reflexivity|]).
  split; [exact H15'|].
  intros r Hr Hr15. rewrite Ho by exact Hr15.
  cbn. unfold DS3231.writeto_mem.
  match goal with |- (if ?c then _ else _) = _ => destruct c eqn:E end;
    [|reflexivity].
  apply andb_true_iff in E. destruct E as [E1 E2].
  apply Z.leb_le in E1. apply Z.ltb_lt in E2. cbn in E1, E2.
  unfold DS3231.DS3231_REG_SECS in *. lia.
Qed.

(** X6: the setter accepts any integers: it never raises, writes the seven
    time registers, sets bit 7 of the month register exactly from the year
    2100 on, clears bit 7 of the status register and changes no other
    register. *)
Theorem datetime_set_writes (self : DS3231.t)
  (year month mday wday hour minute sec sub : Z) :
  0 <= DS3231.i2c self 15 < 256 ->
  exists self',
    DS3231.datetime self
      (Some (year, month, mday, wday, hour, minute, sec, sub))
    = Some (self', None) /\
    (forall r, 0 <= r <= 6 -> 0 <= DS3231.i2c self' r < 256) /\
    Z.testbit (DS3231.i2c self' 5) 7 = (year >=? 2100) /\
    Z.testbit (DS3231.i2c self' 15) 7 = false /\
    (forall r, ~ 0 <= r <= 6 -> r <> 15 ->
       DS3231.i2c self' r = DS3231.i2c self r).
Proof.
  intros H15.
  destruct (datetime_set_effect self year month mday wday hour minute sec sub
              H15)
    as (self' & H & E0 & E1 & E2 & E3 & E4 & E5 & E6 & E15 & Ho).
  exists self'. split; [exact H|].
  pose proof (land_ones_range (DS3231.dec_to_bcd sec) 7 ltac:(lia)) as R0.
  pose proof (land_ones_range (DS3231.dec_to_bcd minute) 7 ltac:(lia)) as R1.
  pose proof (land_ones_range (DS3231.dec_to_bcd hour) 6 ltac:(lia)) as R2.
  pose proof (land_ones_range (DS3231.dec_to_bcd wday) 3 ltac:(lia)) as R3.
  pose proof (land_ones_range (DS3231.dec_to_bcd mday) 6 ltac:(lia)) as R4.
  pose proof (land_ones_range (DS3231.dec_to_bcd month) 5 ltac:(lia)) as R5.
  change (Z.ones 7) with 127 in *. change (Z.ones 6) with 63 in *.
  change (Z.ones 5) with 31 in *. change (Z.ones 3) with 7 in *.
  change (2 ^ 7) with 128 in *. change (2 ^ 6) with 64 in *.
  change (2 ^ 5) with 32 in *. change (2 ^ 3) with 8 in *.
  assert (0 <= year mod 100 < 100) as Ry by (apply Z.mod_pos_bound; lia).
  pose proof (dec_to_bcd_digits _ Ry) as (R6 & _).
  pose proof (month_century_byte _ R5) as (R5' & _).
  split; [|split; [|split; [|exact Ho]]].
  - intros r Hr.
    assert (r = 0 \/ r = 1 \/ r = 2 \/ r = 3 \/ r = 4 \/ r = 5 \/ r = 6)
      as [->|[->|[->|[->|[->|[->| ->]]]]]] by lia;
      rewrite ?E0, ?E1, ?E2, ?E3, ?E4, ?E5, ?E6; try lia.
    destruct (year >=? 2100); lia.
  - rewrite E5. destruct (year >=? 2100).
    + rewrite Z.lor_spec. change (Z.testbit 128 7) with true.
      apply orb_true_r.
    + change 31 with (Z.ones 5). rewrite Z.land_ones by lia.
      apply Z.mod_pow2_bits_high. lia.
  - rewrite E15. change 128 with (Z.shiftl 1 7).
    rewrite testbit_clear by lia. apply andb_false_r.
Qed.

Lemma datetime_set_writes_witness :
  exists self',
    DS3231.datetime rtc (Some (2100, 1, 1, 5, 0, 0, 0, 0)) = Some (self', None) /\
    (forall r, 0 <= r <= 6 -> 0 <= DS3231.i2c self' r < 256) /\
    Z.testbit (DS3231.i2c self' 5) 7 = (2100 >=? 2100) /\
    Z.testbit (DS3231.i2c self' 15) 7 = false /\
    (forall r, ~ 0 <= r <= 6 -> r <> 15 ->
       DS3231.i2c self' r = DS3231.i2c rtc r).
Proof.
  apply (datetime_set_writes rtc 2100 1 1 5 0 0 0 0). apply rtc_memory_bytes.
Defined.

(** What the getter returns in 24-hour mode, from the seven registers. *)
Lemma datetime_get_24h (self : DS3231.t) :
  Z.land (DS3231.i2c self 2) 64 = 0 ->
  exists self',
    DS3231.datetime self None
    = Some (self',
            Some (DS3231.bcd_to_dec (DS3231.i2c self 6) + 2000,
                  DS3231.bcd_to_dec (Z.land (DS3231.i2c self 5) 31),
                  DS3231.bcd_to_dec (Z.land (DS3231.i2c self 4) 63),
                  DS3231.bcd_to_dec (Z.land (DS3231.i2c self 3) 7),
                  DS3231.bcd_to_dec (Z.land (DS3231.i2c self 2) 63),
                  DS3231.bcd_to_dec (Z.land (DS3231.i2c self 1) 127),
                  DS3231.bcd_to_dec (Z.land (DS3231.i2c self 0) 127),
                  0)) /\
    DS3231.i2c self' = DS3231.i2c self.
Proof.
  intros H24. unfold DS3231.datetime. eexists. split.
  - cbn [DS3231.buf7 DS3231.i2c DS3231.buf1].
    unfold DS3231.readfrom_mem, DS3231.DS3231_REG_SECS, DS3231.buf_get.
    change (range 7) with [0; 1; 2; 3; 4; 5; 6].
    cbn [map nth Z.add]. rewrite H24. reflexivity.
  - reflexivity.
Qed.

Lemma bcd_below (n bound limit : Z) :
  forallb (fun n => DS3231.dec_to_bcd n <? limit) (range bound) = true ->
  0 <= n < bound -> 0 <= DS3231.dec_to_bcd n < limit.
Proof.
  intros H Hn. apply (forallb_range _ _ n) in H; [|exact Hn].
  apply Z.ltb_lt in H. split; [|exact H].
  unfold DS3231.dec_to_bcd.
  pose proof (Z.mod_pos_bound n 10 ltac:(lia)).
  pose proof (Z.div_pos n 10 ltac:(lia) ltac:(lia)). lia.
Qed.

(** X7: a date and time whose fields are in their ranges, written with the
    setter and read back with the getter, comes back with its year reduced
    to 2000 + year mod 100 and a last field of 0: unchanged for the years
    2000 to 2099, a century or more lower from 2100 on. *)
Theorem datetime_round_trip (self : DS3231.t)
  (year month mday wday hour minute sec sub : Z) :
  0 <= DS3231.i2c self 15 < 256 ->
  0 <= month <= 12 -> 0 <= mday <= 31 -> 0 <= wday <= 7 ->
  0 <= hour < 24 -> 0 <= minute < 60 -> 0 <= sec < 60 ->
  exists self1 self2,
    DS3231.datetime self
      (Some (year, month, mday, wday, hour, minute, sec, sub))
    = Some (self1, None) /\
    DS3231.datetime self1 None
    = Some (self2,
            Some (2000 + year mod 100, month, mday, wday, hour, minute, sec,
                  0)).
Proof.
  intros H15 Hmo Hmd Hwd Hh Hmi Hs.
  destruct (datetime_set_effect self year month mday wday hour minute sec sub
              H15)
    as (self1 & H & E0 & E1 & E2 & E3 & E4 & E5 & E6 & _).
  pose proof (bcd_below sec 60 128 ltac:(vm_compute; reflexivity) Hs) as B0.
  pose proof (bcd_below minute 60 128 ltac:(vm_compute; reflexivity) Hmi) as B1.
  pose proof (bcd_below hour 24 64 ltac:(vm_compute; reflexivity) Hh) as B2.
  pose proof (bcd_below wday 8 8 ltac:(vm_compute; reflexivity) ltac:(lia))
    as B3.
  pose proof (bcd_below mday 32 64 ltac:(vm_compute; reflexivity) ltac:(lia))
    as B4.
  pose proof (bcd_below month 13 32 ltac:(vm_compute; reflexivity) ltac:(lia))
    as B5.
  rewrite (land_ones_small _ 7 ltac:(lia) B0 : Z.land _ 127 = _) in E0.
  rewrite (land_ones_small _ 7 ltac:(lia) B1 : Z.land _ 127 = _) in E1.
  rewrite (land_ones_small _ 6 ltac:(lia) B2 : Z.land _ 63 = _) in E2.
  rewrite (land_ones_small _ 3 ltac:(lia) B3 : Z.land _ 7 = _) in E3.
  rewrite (land_ones_small _ 6 ltac:(lia) B4 : Z.land _ 63 = _) in E4.
  rewrite (land_ones_small _ 5 ltac:(lia) B5 : Z.land _ 31 = _) in E5.
  assert (Z.land (DS3231.i2c self1 5) 31 = DS3231.dec_to_bcd month) as E5'.
  { rewrite E5. destruct (year >=? 2100).
    - apply month_century_byte. exact B5.
    - apply (land_ones_small _ 5); [lia | exact B5]. }
  assert (Z.land (DS3231.i2c self1 2) 64 = 0) as H24.
  { rewrite E2. apply Z.bits_inj'. intros n Hn.
    rewrite Z.land_spec, Z.bits_0.
    destruct (Z.eq_dec n 6) as [->|Ne].
    - replace (Z.testbit (DS3231.dec_to_bcd hour) 6) with false;
        [reflexivity|].
      symmetry. rewrite <- (Z.mod_small _ (2 ^ 6)) by exact B2.
      apply Z.mod_pow2_bits_high. lia.
    - change 64 with (2 ^ 6). rewrite Z.pow2_bits_false by lia.
      apply andb_false_r. }
  destruct (datetime_get_24h self1 H24) as (self2 & Hg & _).
  exists self1, self2. split; [exact H|].
  rewrite Hg, E5', E0, E1, E2, E3, E4, E6.
  rewrite (land_ones_small _ 7 ltac:(lia) B0 : Z.land _ 127 = _).
  rewrite (land_ones_small _ 7 ltac:(lia) B1 : Z.land _ 127 = _).
  rewrite (land_ones_small _ 6 ltac:(lia) B2 : Z.land _ 63 = _).
  rewrite (land_ones_small _ 3 ltac:(lia) B3 : Z.land _ 7 = _).
  rewrite (land_ones_small _ 6 ltac:(lia) B4 : Z.land _ 63 = _).
  rewrite !bcd_to_dec_inv.
  rewrite (Z.add_comm (year mod 100) 2000). reflexivity.
Qed.

Lemma datetime_round_trip_witness :
  exists self1 self2,
    DS3231.datetime rtc (Some (2031, 12, 31, 7, 23, 59, 58, 9))
    = Some (self1, None) /\
    DS3231.datetime self1 None
    = Some (self2, Some (2000 + 2031 mod 100, 12, 31, 7, 23, 59, 58, 0)).
Proof.
  apply (datetime_round_trip rtc 2031 12 31 7 23 59 58 9);
    [apply rtc_memory_bytes | lia | lia | lia | lia | lia | lia].
Defined.

(** X8: in 12-hour mode (bit 6 of the hour register set, bit 5 the PM flag,
    the low bits the hour 1 to 12 in BCD) the getter returns the hour of the
    day: 12 AM is 0, 12 PM is 12, the other PM hours are 12 more. *)
Theorem datetime_12_hour_mode (self : DS3231.t) (h12 : Z) (pm : bool) :
  1 <= h12 <= 12 ->
  DS3231.i2c self 2
    = 64 + (if pm then 32 else 0) + DS3231.dec_to_bcd h12 ->
  exists self' year month mday wday minute sec,
    DS3231.datetime self None
    = Some (self',
            Some (year, month, mday, wday,
                  h12 mod 12 + (if pm then 12 else 0), minute, sec, 0)).
Proof.
  intros Hh Hreg.
  assert (h12 = 1 \/ h12 = 2 \/ h12 = 3 \/ h12 = 4 \/ h12 = 5 \/ h12 = 6 \/
          h12 = 7 \/ h12 = 8 \/ h12 = 9 \/ h12 = 10 \/ h12 = 11 \/ h12 = 12)
    as Hcases by lia.
  unfold DS3231.datetime.
  cbn [DS3231.buf7 DS3231.i2c DS3231.buf1].
  unfold DS3231.readfrom_mem, DS3231.DS3231_REG_SECS, DS3231.buf_get.
  change (range 7) with [0; 1; 2; 3; 4; 5; 6].
  cbn [map nth Z.add]. rewrite Hreg.
  destruct Hcases as [->|[->|[->|[->|[->|[->|[->|[->|[->|[->|[->| ->]]]]]]]]]]];
    destruct pm; do 7 eexists; reflexivity.
Qed.

Lemma datetime_12_hour_mode_witness :
  exists self' year month mday wday minute sec,
    DS3231.datetime rtc_12h None
    = Some (self',
            Some (year, month, mday, wday, 12 mod 12 + 12, minute, sec, 0)).
Proof.
  apply (datetime_12_hour_mode rtc_12h 12 true); [lia | reflexivity].
Defined.

(** X9: creating the driver on a chip whose control and status registers
    hold bytes succeeds, clears bit 7 of both (oscillator enabled, stop flag
    cleared), and changes nothing else in the chip. *)
Theorem init_clears_eosc_and_osf (mem : Z -> Z) :
  0 <= mem 14 < 256 -> 0 <= mem 15 < 256 ->
  exists self,
    DS3231.__init__ mem = Some self /\
    (forall j, 0 <= j ->
       Z.testbit (DS3231.i2c self 14) j = Z.testbit (mem 14) j && negb (j =? 7)) /\
    (forall j, 0 <= j ->
       Z.testbit (DS3231.i2c self 15) j = Z.testbit (mem 15) j && negb (j =? 7)) /\
    (forall r, r <> 14 -> r <> 15 -> DS3231.i2c self r = mem r).
Proof.
  intros H14 H15. unfold DS3231.__init__.
  destruct (clear_bit_effect (DS3231.mk mem 0 [0; 0; 0; 0; 0; 0; 0]) 14 7)
    as (s1 & E1 & V1 & O1 & _); [exact H14 | lia |].
  unfold DS3231.DS3231_REG_CTRL, DS3231.DS3231_REG_STATUS.
  rewrite E1. cbn [bind].
  destruct (clear_bit_effect s1 15 7) as (s2 & E2 & V2 & O2 & _);
    [rewrite O1 by lia; exact H15 | lia |].
  exists s2. split; [exact E2|]. split; [|split].
  - intros j Hj. rewrite O2 by lia. rewrite V1. apply testbit_clear; lia.
  - intros j Hj. rewrite V2, O1 by lia. apply testbit_clear; lia.
  - intros r R14 R15. rewrite O2, O1 by lia. reflexivity.
Qed.

Lemma init_clears_eosc_and_osf_witness :
  exists self,
    DS3231.__init__ rtc_memory = Some self /\
    (forall j, 0 <= j ->
       Z.testbit (DS3231.i2c self 14) j
       = Z.testbit (rtc_memory 14) j && negb (j =? 7)) /\
    (forall j, 0 <= j ->
       Z.testbit (DS3231.i2c self 15) j
       = Z.testbit (rtc_memory 15) j && negb (j =? 7)) /\
    (forall r, r <> 14 -> r <> 15 -> DS3231.i2c self r = rtc_memory r).
Proof.
  apply (init_clears_eosc_and_osf rtc_memory); apply rtc_memory_bytes.
Defined.

(** X10: [start_temperature_conversion] on a control register holding a
    byte succeeds and leaves it with bit 5 set, whether or not it was set
    before; no other bit and no other register changes. *)
Theorem start_conversion_sets_conv (self : DS3231.t) :
  0 <= DS3231.i2c self 14 < 256 ->
  exists self',
    DS3231.start_temperature_conversion self = Some self' /\
    DS3231.i2c self' 14 = Z.lor (DS3231.i2c self 14) 32 /\
    (forall r, r <> 14 -> DS3231.i2c self' r = DS3231.i2c self r).
Proof.
  intros H14. unfold DS3231.start_temperature_conversion, DS3231._read_reg.
  unfold DS3231.DS3231_REG_CTRL. cbn [DS3231.i2c DS3231.buf7 DS3231.buf1].
  rewrite bit_mask_Some by lia. cbn [bind].
  change (Z.shiftl 1 5) with 32.
  set (s0 := DS3231.mk (DS3231.i2c self) (DS3231.i2c self 14)
               (DS3231.buf7 self)).
  pose proof (set_bit_byte _ 5 H14 ltac:(lia)) as Hb.
  change (Z.shiftl 1 5) with 32 in Hb.
  destruct (Z.land (DS3231.i2c self 14) 32 =? 0).
  - destruct (write_reg_effect s0 14 _ Hb) as (s1 & E1 & V1 & O1 & _).
    rewrite E1. cbn [bind].
    destruct (set_bit_effect s1 14 5) as (s2 & E2 & V2 & O2);
      [rewrite V1; exact Hb | lia |].
    exists s2. split; [exact E2|]. split.
    + rewrite V2, V1. change (Z.shiftl 1 5) with 32.
      rewrite <- Z.lor_assoc, Z.lor_diag. reflexivity.
    + intros r Hr. rewrite O2, O1 by exact Hr. reflexivity.
  - cbn [bind].
    destruct (set_bit_effect s0 14 5) as (s2 & E2 & V2 & O2);
      [exact H14 | lia |].
    exists s2. split; [exact E2|]. split; [exact V2|].
    intros r Hr. rewrite O2 by exact Hr. reflexivity.
Qed.

Lemma start_conversion_sets_conv_witness :
  exists self',
    DS3231.start_temperature_conversion rtc = Some self' /\
    DS3231.i2c self' 14 = Z.lor (DS3231.i2c rtc 14) 32 /\
    (forall r, r <> 14 -> DS3231.i2c self' r = DS3231.i2c rtc r).
Proof.
  apply (start_conversion_sets_conv rtc). apply rtc_memory_bytes.
Defined.

(** ** main.py: the weekday read from the clock *)

(** X11: whatever the registers hold, the weekday the getter returns is
    between 0 and 7 and the lookup of its name in [update_display_info]
    finds one: 1 to 7 are Monday to Sunday, and 0 is Sunday too. *)
Theorem weekday_name_of_clock (self self' : DS3231.t)
  (year month mday wday hour minute sec sub : Z) :
  DS3231.datetime self None
    = Some (self', Some (year, month, mday, wday, hour, minute, sec, sub)) ->
  0 <= wday <= 7 /\
  Main.weekday_name wday
    = nth_error Main.DAYS_OF_WEEK (Z.to_nat (if wday =? 0 then 6 else wday - 1)) /\
  exists name, Main.weekday_name wday = Some name.
Proof.
  unfold DS3231.datetime. intros H. injection H as _ _ _ _ Hw _ _ _ _.
  assert (0 <= wday <= 7) as Hr.
  { rewrite <- Hw.
    pose proof (land_ones_range
                  (DS3231.buf_get
                     (DS3231.readfrom_mem (DS3231.i2c self)
                        DS3231.DS3231_REG_SECS 7) 3) 3 ltac:(lia)) as R.
    change (Z.ones 3) with 7 in R. change (2 ^ 3) with 8 in R.
    cbn [DS3231.buf7].
    unfold DS3231.bcd_to_dec.
    rewrite Z.div_small, Z.mod_small by lia. lia. }
  split; [exact Hr|].
  assert (wday = 0 \/ wday = 1 \/ wday = 2 \/ wday = 3 \/ wday = 4 \/
          wday = 5 \/ wday = 6 \/ wday = 7)
    as [->|[->|[->|[->|[->|[->|[->| ->]]]]]]] by lia;
    (split; [reflexivity | eexists; reflexivity]).
Qed.

Lemma weekday_name_of_clock_witness :
  0 <= 5 <= 7 /\
  Main.weekday_name 5
    = nth_error Main.DAYS_OF_WEEK (Z.to_nat (if 5 =? 0 then 6 else 5 - 1)) /\
  exists name, Main.weekday_name 5 = Some name.
Proof.
  apply (weekday_name_of_clock rtc
           (DS3231.mk rtc_memory 0 [86; 52; 18; 5; 33; 6; 36])
           2024 6 21 5 12 34 56 0).
  reflexivity.
Defined.

(** ** ili9341.py: colors *)

Lemma rgb565_fields (a b c : Z) :
  0 <= a < 32 -> 0 <= b < 64 -> 0 <= c < 32 ->
  Z.lor (Z.lor (Z.shiftl (8 * a) 8) (Z.shiftl (4 * b) 3)) c
  = a * 2048 + b * 32 + c.
Proof.
  intros Ha Hb Hc.
  assert (forallb (fun a => forallb (fun b => forallb (fun c =>
            Z.lor (Z.lor (Z.shiftl (8 * a) 8) (Z.shiftl (4 * b) 3)) c
            =? a * 2048 + b * 32 + c) (range 32)) (range 64)) (range 32)
          = true) as H by (vm_compute; reflexivity).
  apply (forallb_range _ _ a) in H; [|exact Ha].
  apply (forallb_range _ _ b) in H; [|exact Hb].
  apply (forallb_range _ _ c) in H; [|exact Hc].
  apply Z.eqb_eq in H. exact H.
Qed.

Lemma land_high_bits (v k : Z) :
  0 <= k ->
  Z.land v (Z.lnot (Z.ones k)) = 2 ^ k * (v / 2 ^ k).
Proof.
  intros Hk. rewrite <- Z.ldiff_land, Z.ldiff_ones_r by exact Hk.
  rewrite Z.shiftr_div_pow2, Z.shiftl_mul_pow2 by exact Hk. lia.
Qed.

(** X12: for three bytes, [color565] is the 16-bit word made of the 5 high
    bits of red, the 6 high bits of green and the 5 high bits of blue, so it
    is sent unchanged by [pack(">H")]; the low bits of the channels do not
    count. *)
Theorem color565_fields (r g b : Z) :
  0 <= r < 256 -> 0 <= g < 256 -> 0 <= b < 256 ->
  ILI9341.color565 r g b = r / 8 * 2048 + g / 4 * 32 + b / 8 /\
  0 <= ILI9341.color565 r g b < 65536 /\
  ILI9341.pack_H (ILI9341.color565 r g b) = ILI9341.color565 r g b /\
  ILI9341.color565 r g b
  = ILI9341.color565 (r - r mod 8) (g - g mod 4) (b - b mod 8).
Proof.
  assert (forall r g b, 0 <= r < 256 -> 0 <= g < 256 -> 0 <= b < 256 ->
            ILI9341.color565 r g b = r / 8 * 2048 + g / 4 * 32 + b / 8) as F.
  { clear. intros r g b Hr Hg Hb. unfold ILI9341.color565.
    assert (Z.land r 248 = 8 * (r / 8)) as ->.
    { replace (Z.land r 248) with (Z.land (Z.land r (Z.lnot (Z.ones 3))) 255).
      - rewrite (land_high_bits r 3) by lia. change 255 with (Z.ones 8).
        rewrite Z.land_ones by lia. apply Z.mod_small.
        change (2 ^ 3) with 8. change (2 ^ 8) with 256.
        pose proof (Z.mul_div_le r 8 ltac:(lia)).
        pose proof (Z.div_pos r 8 ltac:(lia) ltac:(lia)). lia.
      - rewrite <- Z.land_assoc. reflexivity. }
    assert (Z.land g 252 = 4 * (g / 4)) as ->.
    { replace (Z.land g 252) with (Z.land (Z.land g (Z.lnot (Z.ones 2))) 255).
      - rewrite (land_high_bits g 2) by lia. change 255 with (Z.ones 8).
        rewrite Z.land_ones by lia. apply Z.mod_small.
        change (2 ^ 2) with 4. change (2 ^ 8) with 256.
        pose proof (Z.mul_div_le g 4 ltac:(lia)).
        pose proof (Z.div_pos g 4 ltac:(lia) ltac:(lia)). lia.
      - rewrite <- Z.land_assoc. reflexivity. }
    rewrite (Z.shiftr_div_pow2 b 3) by lia. change (2 ^ 3) with 8.
    apply rgb565_fields.
    - split; [apply Z.div_pos; lia | apply Z.div_lt_upper_bound; lia].
    - split; [apply Z.div_pos; lia | apply Z.div_lt_upper_bound; lia].
    - split; [apply Z.div_pos; lia | apply Z.div_lt_upper_bound; lia]. }
  intros Hr Hg Hb.
  assert (0 <= r / 8 < 32 /\ 0 <= g / 4 < 64 /\ 0 <= b / 8 < 32)
    as (Ra & Rb & Rc).
  { repeat split; try (apply Z.div_pos; lia);
      apply Z.div_lt_upper_bound; lia. }
  rewrite (F r g b Hr Hg Hb).
  split; [reflexivity|]. split; [lia|]. split.
  - unfold ILI9341.pack_H. apply Z.mod_small. lia.
  - pose proof (Z.mod_pos_bound r 8 ltac:(lia)).
    pose proof (Z.mod_pos_bound g 4 ltac:(lia)).
    pose proof (Z.mod_pos_bound b 8 ltac:(lia)).
    pose proof (Z.div_mod r 8 ltac:(lia)).
    pose proof (Z.div_mod g 4 ltac:(lia)).
    pose proof (Z.div_mod b 8 ltac:(lia)).
    rewrite F by lia.
    replace (r - r mod 8) with (r / 8 * 8) by lia.
    replace (g - g mod 4) with (g / 4 * 4) by lia.
    replace (b - b mod 8) with (b / 8 * 8) by lia.
    rewrite !Z.div_mul by lia. reflexivity.
Qed.

Lemma color565_fields_witness :
  ILI9341.color565 255 130 7 = 255 / 8 * 2048 + 130 / 4 * 32 + 7 / 8 /\
  0 <= ILI9341.color565 255 130 7 < 65536 /\
  ILI9341.pack_H (ILI9341.color565 255 130 7) = ILI9341.color565 255 130 7 /\
  ILI9341.color565 255 130 7
  = ILI9341.color565 (255 - 255 mod 8) (130 - 130 mod 4) (7 - 7 mod 8).
Proof.
  apply (color565_fields 255 130 7); lia.
Defined.

(** ** ili9341.py: rectangles *)

(** X13: on a screen at least one pixel wide and high, [fill_rectangle]
    called with any numbers sets a window that is not empty and lies on the
    screen, paints every pixel of it and no other: a width or height of 0 or
    less counts as 1, and a rectangle placed off the screen is moved onto its
    edge. *)
Theorem fill_rectangle_clamps (d : ILI9341.t) (x y w h color : Z) :
  0 < ILI9341.width d -> 0 < ILI9341.height d ->
  exists x0 y0 x1 y1,
    ILI9341.calls (ILI9341.fill_rectangle d x y w h color)
    = ILI9341.calls d ++ [ILI9341.Call_set_window x0 y0 x1 y1] /\
    0 <= x0 <= x1 /\ x1 < ILI9341.width d /\
    0 <= y0 <= y1 /\ y1 < ILI9341.height d /\
    (0 <= x < ILI9341.width d -> x0 = x) /\
    (0 <= y < ILI9341.height d -> y0 = y) /\
    (forall px py,
       ILI9341.gram (ILI9341.fill_rectangle d x y w h color) px py
       = if (x0 <=? px) && (px <=? x1) && (y0 <=? py) && (py <=? y1)
         then ILI9341.pack_H color
         else ILI9341.gram d px py).
Proof.
  intros HW HH.
  unfold ILI9341.fill_rectangle, ILI9341.write_window, ILI9341.record.
  cbn [ILI9341.width ILI9341.height ILI9341.gram ILI9341.calls].
  do 4 eexists. split; [reflexivity|].
  repeat split; lia.
Qed.

Lemma fill_rectangle_clamps_witness :
  exists x0 y0 x1 y1,
    ILI9341.calls (ILI9341.fill_rectangle (display_of 240 320 0) 500 10 0 (-3) 7)
    = [ILI9341.Call_set_window x0 y0 x1 y1] /\
    0 <= x0 <= x1 /\ x1 < 240 /\ 0 <= y0 <= y1 /\ y1 < 320.
Proof.
  destruct (fill_rectangle_clamps (display_of 240 320 0) 500 10 0 (-3) 7)
    as (x0 & y0 & x1 & y1 & Hc & Hx & Hx1 & Hy & Hy1 & _);
    [reflexivity | reflexivity |].
  exists x0, y0, x1, y1. auto.
Defined.

(** A rectangle that lies on the screen is painted as asked. *)
Lemma fill_rectangle_inside (d : ILI9341.t) (x y w h color px py : Z) :
  0 <= x -> 1 <= w -> x + w <= ILI9341.width d ->
  0 <= y -> 1 <= h -> y + h <= ILI9341.height d ->
  ILI9341.gram (ILI9341.fill_rectangle d x y w h color) px py
  = if (x <=? px) && (px <? x + w) && (y <=? py) && (py <? y + h)
    then ILI9341.pack_H color
    else ILI9341.gram d px py.
Proof.
  intros Hx Hw Hxw Hy Hh Hyh.
  unfold ILI9341.fill_rectangle, ILI9341.write_window, ILI9341.record.
  cbn [ILI9341.width ILI9341.height ILI9341.gram ILI9341.calls].
  replace (Z.min (ILI9341.width d - 1) (Z.max 0 x)) with x by lia.
  replace (Z.min (ILI9341.height d - 1) (Z.max 0 y)) with y by lia.
  replace (Z.min (ILI9341.width d - x) (Z.max 1 w)) with w by lia.
  replace (Z.min (ILI9341.height d - y) (Z.max 1 h)) with h by lia.
  replace (px <=? x + w - 1) with (px <? x + w);
    [replace (py <=? y + h - 1) with (py <? y + h); [reflexivity|]|].
  - destruct (py <? y + h) eqn:E1; destruct (py <=? y + h - 1) eqn:E2;
      try reflexivity;
      [apply Z.ltb_lt in E1; apply Z.leb_gt in E2
      |apply Z.ltb_ge in E1; apply Z.leb_le in E2]; lia.
  - destruct (px <? x + w) eqn:E1; destruct (px <=? x + w - 1) eqn:E2;
      try reflexivity;
      [apply Z.ltb_lt in E1; apply Z.leb_gt in E2
      |apply Z.ltb_ge in E1; apply Z.leb_le in E2]; lia.
Qed.

(** X14: a rectangle that lies on the screen is painted exactly: the pixels
    of the rectangle take the color, as [pack(">H")] sends it, and every
    other pixel keeps its value. *)
Theorem fill_rectangle_exact (d : ILI9341.t) (x y w h color px py : Z) :
  0 <= x -> 1 <= w -> x + w <= ILI9341.width d ->
  0 <= y -> 1 <= h -> y + h <= ILI9341.height d ->
  ILI9341.gram (ILI9341.fill_rectangle d x y w h color) px py
  = if (x <=? px) && (px <? x + w) && (y <=? py) && (py <? y + h)
    then ILI9341.pack_H color
    else ILI9341.gram d px py.
Proof. exact (fill_rectangle_inside d x y w h color px py). Qed.

Lemma fill_rectangle_exact_witness :
  ILI9341.gram (ILI9341.fill_rectangle (display_of 240 320 0) 10 20 30 40 7)
    39 59 = ILI9341.pack_H 7 /\
  ILI9341.gram (ILI9341.fill_rectangle (display_of 240 320 0) 10 20 30 40 7)
    40 59 = 0.
Proof.
  split.
  - rewrite (fill_rectangle_exact (display_of 240 320 0) 10 20 30 40 7 39 59)
      by (cbn; lia).
    reflexivity.
  - rewrite (fill_rectangle_exact (display_of 240 320 0) 10 20 30 40 7 40 59)
      by (cbn; lia).
    reflexivity.
Defined.

(** X15: a horizontal or vertical line that lies on the screen paints its
    own pixels and no other. *)
Theorem hline_vline_exact (d : ILI9341.t) (x y n color px py : Z) :
  0 <= x -> 0 <= y -> 1 <= n ->
  (x + n <= ILI9341.width d -> y < ILI9341.height d ->
   ILI9341.gram (ILI9341.hline d x y n color) px py
   = if (py =? y) && (x <=? px) && (px <? x + n)
     then ILI9341.pack_H color
     else ILI9341.gram d px py) /\
  (x < ILI9341.width d -> y + n <= ILI9341.height d ->
   ILI9341.gram (ILI9341.vline d x y n color) px py
   = if (px =? x) && (y <=? py) && (py <? y + n)
     then ILI9341.pack_H color
     else ILI9341.gram d px py).
Proof.
  intros Hx Hy Hn. split; intros H1 H2.
  - unfold ILI9341.hline. rewrite fill_rectangle_inside by lia.
    destruct (py =? y) eqn:E.
    + apply Z.eqb_eq in E. subst py.
      assert ((y <=? y) = true) as -> by (apply Z.leb_le; lia).
      assert ((y <? y + 1) = true) as -> by (apply Z.ltb_lt; lia).
      rewrite !andb_true_r. reflexivity.
    + apply Z.eqb_neq in E.
      assert ((y <=? py) && (py <? y + 1) = false) as E'.
      { apply andb_false_iff.
        destruct (Z_lt_dec py y);
          [left; apply Z.leb_gt | right; apply Z.ltb_ge]; lia. }
      rewrite <- andb_assoc, E', andb_false_r. reflexivity.
  - unfold ILI9341.vline. rewrite fill_rectangle_inside by lia.
    destruct (px =? x) eqn:E.
    + apply Z.eqb_eq in E. subst px.
      assert ((x <=? x) = true) as -> by (apply Z.leb_le; lia).
      assert ((x <? x + 1) = true) as -> by (apply Z.ltb_lt; lia).
      reflexivity.
    + apply Z.eqb_neq in E.
      assert ((x <=? px) && (px <? x + 1) = false) as ->; [|reflexivity].
      apply andb_false_iff.
      destruct (Z_lt_dec px x);
        [left; apply Z.leb_gt | right; apply Z.ltb_ge]; lia.
Qed.

Lemma hline_vline_exact_witness :
  ILI9341.gram (ILI9341.hline (display_of 240 320 0) 10 20 30 7) 39 20
  = ILI9341.pack_H 7 /\
  ILI9341.gram (ILI9341.vline (display_of 240 320 0) 10 20 30 7) 10 50 = 0.
Proof.
  destruct (hline_vline_exact (display_of 240 320 0) 10 20 30 7 39 20)
    as [Hh _]; [lia | lia | lia |].
  destruct (hline_vline_exact (display_of 240 320 0) 10 20 30 7 10 50)
    as [_ Hv]; [lia | lia | lia |].
  split.
  - rewrite Hh by (cbn; lia). reflexivity.
  - rewrite Hv by (cbn; lia). reflexivity.
Defined.

(** ** ili9341.py: rotation *)

Lemma even_mod_4 (r : Z) : Z.even r = Z.even (r mod 4).
Proof.
  rewrite (Z.div_mod r 4) at 1 by lia.
  rewrite Z.even_add, Z.even_mul. cbn [Z.even orb].
  destruct (Z.even (r mod 4)); reflexivity.
Qed.

(** X16: [set_rotation] takes its argument modulo 4, for negative numbers
    too; whatever size the display had, it becomes 240 x 320 for an even
    rotation and 320 x 240 for an odd one; the byte sent has the BGR bit and
    has the row/column exchange bit exactly for the odd rotations; the
    display memory is not written. *)
Theorem set_rotation_geometry (d : ILI9341.t) (r : Z) :
  let '(d', rotation, data) := ILI9341.set_rotation d r in
  rotation = r mod 4 /\
  ILI9341.width d' = (if Z.even r then 240 else 320) /\
  ILI9341.height d' = (if Z.even r then 320 else 240) /\
  ILI9341.gram d' = ILI9341.gram d /\
  ILI9341.calls d' = ILI9341.calls d /\
  (exists b, data = Some b /\ Z.testbit b 3 = true /\
             Z.testbit b 5 = Z.odd r) /\
  ILI9341.set_rotation d (r + 4) = ILI9341.set_rotation d r.
Proof.
  assert (ILI9341.set_rotation d (r + 4) = ILI9341.set_rotation d r) as Hp.
  { unfold ILI9341.set_rotation.
    replace ((r + 4) mod 4) with (r mod 4); [reflexivity|].
    symmetry. apply (Z.mod_add r 1 4). lia. }
  rewrite Hp. unfold ILI9341.set_rotation.
  rewrite <- Z.negb_even, (even_mod_4 r).
  pose proof (Z.mod_pos_bound r 4 ltac:(lia)) as Hm.
  assert (r mod 4 = 0 \/ r mod 4 = 1 \/ r mod 4 = 2 \/ r mod 4 = 3)
    as [E|[E|[E|E]]] by lia;
    rewrite E; cbn; repeat split; eexists; repeat split.
Qed.

(** ** writer.py: every character is the substitute glyph *)

(** X17: the character code does not count: [_char_width] returns the same
    width and [draw_char] draws the same glyph for any two codes, because
    [_get_char_addr] replaces every code by the substitute code. *)
Theorem char_code_is_ignored (self : Writer.t) (c c' x y : Z)
  (d : ILI9341.t) (fnt : bytearray) (color : Z) (bgcolor : option Z)
  (landscape reverse : bool) :
  _get_char_addr fnt c = _get_char_addr fnt c' /\
  Writer._char_width self c = Writer._char_width self c' /\
  Writer.draw_char c x y d fnt color bgcolor landscape reverse
  = Writer.draw_char c' x y d fnt color bgcolor landscape reverse.
Proof.
  split; [apply get_char_addr_any|]. split.
  - rewrite !char_width_resolved.
    rewrite (get_char_addr_any _ c c'). reflexivity.
  - unfold Writer.draw_char. rewrite (get_char_addr_any fnt c c').
    reflexivity.
Qed.

(** ** writer.py: the length of a string *)

Lemma char_width_any (self : Writer.t) (c c' : Z) :
  Writer._char_width self c = Writer._char_width self c'.
Proof.
  rewrite !char_width_resolved.
  rewrite (get_char_addr_any _ c c'). reflexivity.
Qed.

Lemma stringlen_from_shift (self : Writer.t) (s : Writer.str) (l : Z) :
  Writer.stringlen_from self l s
  = (n <- Writer.stringlen_from self 0 s ;; Some (l + n)).
Proof.
  revert l. induction s as [|c s IH]; intros l.
  - cbn. rewrite Z.add_0_r. reflexivity.
  - cbn [Writer.stringlen_from].
    destruct (Writer._char_width self c) as [w|]; [|reflexivity].
    cbn [bind]. rewrite (IH (l + w)), (IH (0 + w)).
    destruct (Writer.stringlen_from self 0 s) as [n|]; [|reflexivity].
    cbn [bind]. f_equal. lia.
Qed.

Lemma stringlen_from_app (self : Writer.t) (s1 s2 : Writer.str) (l : Z) :
  Writer.stringlen_from self l (s1 ++ s2)
  = (a <- Writer.stringlen_from self l s1 ;; Writer.stringlen_from self a s2).
Proof.
  revert l. induction s1 as [|c s1 IH]; intros l; [reflexivity|].
  cbn [app Writer.stringlen_from].
  destruct (Writer._char_width self c) as [w|]; [|reflexivity].
  cbn [bind]. apply IH.
Qed.

(** X18: the length of a concatenation is the sum of the lengths, and it
    fails exactly when one of the two does. *)
Theorem stringlen_app (self : Writer.t) (s1 s2 : Writer.str) :
  Writer.stringlen self (s1 ++ s2)
  = (a <- Writer.stringlen self s1 ;;
     b <- Writer.stringlen self s2 ;;
     Some (a + b)).
Proof.
  unfold Writer.stringlen. rewrite stringlen_from_app.
  destruct (Writer.stringlen_from self 0 s1) as [a|]; [|reflexivity].
  cbn [bind]. apply stringlen_from_shift.
Qed.

(** X19: as every character has the width of the substitute glyph, the
    length of a string is its number of characters times that width. *)
Theorem stringlen_uniform (self : Writer.t) (c w : Z) (s : Writer.str) :
  Writer._char_width self c = Some w ->
  Writer.stringlen self s = Some (Z.of_nat (List.length s) * w).
Proof.
  intros Hw. unfold Writer.stringlen.
  assert (forall l, Writer.stringlen_from self l s
                    = Some (l + Z.of_nat (List.length s) * w)) as H.
  { induction s as [|c' s IH]; intros l.
    - cbn. f_equal. lia.
    - cbn [Writer.stringlen_from].
      rewrite (char_width_any self c' c), Hw. cbn [bind].
      rewrite IH. f_equal. cbn [List.length]. lia. }
  rewrite H. reflexivity.
Qed.

Lemma stringlen_uniform_witness :
  Writer.stringlen (writer_8x6 0 0) (Writer.str_of "PICO CLOCK")
  = Some (Z.of_nat (List.length (Writer.str_of "PICO CLOCK")) * 6).
Proof.
  apply (stringlen_uniform (writer_8x6 0 0) 48 6). reflexivity.
Defined.

(** ** writer.py: printing a string *)

(** X20: printing a concatenation is printing its first part, then its
    second part from the writer the first left; an exception in either is an
    exception of the whole. *)
Theorem printstring_app (self : Writer.t) (s1 s2 : Writer.str) :
  Writer.printstring self (s1 ++ s2)
  = (self' <- Writer.printstring self s1 ;; Writer.printstring self' s2).
Proof.
  revert self. induction s1 as [|c s1 IH]; intros self; [reflexivity|].
  cbn [app Writer.printstring].
  destruct (Writer._printchar self c) as [self1|]; [|reflexivity].
  cbn [bind]. apply IH.
Qed.

Lemma printstring_settings (s : Writer.str) :
  forall self self',
    Writer.printstring self s = Some self' -> same_settings self self'.
Proof.
  induction s as [|c s IH]; intros self self' H.
  - injection H as <-. apply same_settings_refl.
  - cbn [Writer.printstring] in H.
    apply bind_Some in H. destruct H as [self1 [H1 H]].
    eapply same_settings_trans; [exact (printchar_settings _ _ _ H1)|].
    apply IH. exact H.
Qed.

(** X21: printing never changes the font, the colors, the orientation, the
    clip flag, the height or the space mapping of the writer, nor the size
    of the display. *)
Theorem printstring_keeps_settings (self self' : Writer.t) (s : Writer.str) :
  Writer.printstring self s = Some self' ->
  Writer.font self' = Writer.font self /\
  Writer.text_color self' = Writer.text_color self /\
  Writer.bgcolor self' = Writer.bgcolor self /\
  Writer.landscape self' = Writer.landscape self /\
  Writer.reverse self' = Writer.reverse self /\
  Writer._clip self' = Writer._clip self /\
  Writer.height self' = Writer.height self /\
  Writer.map_space self' = Writer.map_space self /\
  ILI9341.width (Writer.device self') = ILI9341.width (Writer.device self) /\
  ILI9341.height (Writer.device self') = ILI9341.height (Writer.device self).
Proof. exact (printstring_settings s self self'). Qed.

Lemma printstring_keeps_settings_witness :
  Writer.font (after_AB 238) = Writer.font (writer_8x6 238 0) /\
  ILI9341.width (Writer.device (after_AB 238)) = 240.
Proof.
  destruct (printstring_keeps_settings (writer_8x6 238 0) (after_AB 238)
              (Writer.str_of "AB") printstring_AB_238)
    as (Hf & _ & _ & _ & _ & _ & _ & _ & Hw & _).
  split; [exact Hf | exact Hw].
Defined.

(** ** writer.py: the pen stays on the screen *)

Lemma char_width_byte (self : Writer.t) (c w : Z) :
  Writer._char_width self c = Some w -> 0 <= w < 256.
Proof.
  rewrite char_width_resolved. intros H.
  apply bind_Some in H. destruct H as [a [_ H]].
  exact (getitem_range _ _ _ H).
Qed.

Lemma wrap_text_console (self : Writer.t) (width : Z) :
  Writer.console (Writer.wrap_text self width) = Writer.console self.
Proof.
  unfold Writer.wrap_text. destruct (_ >? _); [|reflexivity].
  cbn. destruct (_ >=? _); reflexivity.
Qed.

Lemma render_char_console (self self' : Writer.t) (char_code width : Z) :
  Writer.render_char self char_code width = Some self' ->
  0 <= Writer.y self + Writer.height self ->
  Writer.y self < ILI9341.height (Writer.device self) ->
  Writer.console self' = Writer.console self.
Proof.
  unfold Writer.render_char. intros H Htop Hbot.
  destruct (_ <? 0) eqn:E1; [apply Z.ltb_lt in E1; lia|].
  destruct (_ >=? _) eqn:E2;
    [rewrite Z.geb_leb in E2; apply Z.leb_le in E2; lia|].
  apply bind_Some in H. destruct H as [[d r] [E H]].
  injection H as <-. reflexivity.
Qed.

(** Where [wrap_text] leaves a pen that was on the screen. *)
Lemma wrap_text_pen (self : Writer.t) (width : Z) :
  pen_on_screen self -> 0 <= Writer.height self ->
  0 <= width <= ILI9341.width (Writer.device self) ->
  0 <= Writer.x (Writer.wrap_text self width) /\
  Writer.x (Writer.wrap_text self width) + width
    <= ILI9341.width (Writer.device self) /\
  0 <= Writer.y (Writer.wrap_text self width)
    < ILI9341.height (Writer.device self).
Proof.
  intros [Hx Hy] Hh Hw.
  destruct (Z_le_gt_dec (Writer.x self + width)
              (ILI9341.width (Writer.device self))) as [Hfit|Hwrap].
  - rewrite wrap_text_fits by exact Hfit. lia.
  - destruct (Z_lt_ge_dec (Writer.y self + Writer.height self)
                (ILI9341.height (Writer.device self))) as [Hon|Hoff].
    + rewrite wrap_text_wrap by assumption. cbn. lia.
    + rewrite wrap_text_clear by assumption. cbn. lia.
Qed.

Lemma printchar_pen (self self' : Writer.t) (c : Z) :
  Writer._printchar self c = Some self' ->
  pen_on_screen self -> 0 <= Writer.height self ->
  (forall w, Writer._char_width self c = Some w ->
             w <= ILI9341.width (Writer.device self)) ->
  pen_on_screen self' /\
  Writer.console self' = Writer.console self /\
  (Writer._char_width self c = Some 0 -> self' = self) /\
  (Writer._char_width self c <> Some 0 ->
   List.length (Writer.drawn self') = S (List.length (Writer.drawn self))).
Proof.
  intros Hp Hpen Hh Hfit.
  pose proof (printchar_settings _ _ _ Hp)
    as (_ & _ & _ & _ & _ & _ & _ & _ & SW & SH).
  unfold Writer._printchar in Hp.
  destruct (Writer._char_width self c) as [w|] eqn:Hw; [|discriminate].
  cbn [bind] in Hp.
  destruct (w =? 0) eqn:E0.
  - injection Hp as <-. apply Z.eqb_eq in E0.
    repeat split; try apply Hpen; try reflexivity. intros H. congruence.
  - apply Z.eqb_neq in E0.
    pose proof (char_width_byte _ _ _ Hw) as Hb.
    pose proof (wrap_text_pen self w Hpen Hh
                  ltac:(split; [lia | apply Hfit; reflexivity]))
      as (Wx & Wxw & Wy).
    pose proof (wrap_text_settings self w)
      as (_ & _ & _ & _ & _ & _ & Wh & _ & WW & WH).
    pose proof (render_char_console _ _ _ _ Hp
                  ltac:(rewrite Wh; lia) ltac:(rewrite WH; lia)) as Hc.
    apply render_char_drawn in Hp; [|rewrite Wh; lia|rewrite WH; lia].
    destruct Hp as (Hd & Hx' & Hy' & _).
    unfold pen_on_screen. rewrite SW, SH, Hx', Hy'.
    repeat split; try lia.
    + rewrite Hc. apply wrap_text_console.
    + intros H. congruence.
    + intros _. rewrite Hd, wrap_text_drawn, length_app. cbn. lia.
Qed.

(** X22: from a pen on the screen, with a font height that is not negative
    and glyphs no wider than the screen, printing a string leaves the pen on
    the screen, prints no clip message, and draws every character whose
    width is not 0: no character is clipped. *)
Theorem printstring_keeps_pen (s : Writer.str) (self self' : Writer.t) :
  Writer.printstring self s = Some self' ->
  pen_on_screen self ->
  0 <= Writer.height self ->
  (forall c w, Writer._char_width self c = Some w ->
               w <= ILI9341.width (Writer.device self)) ->
  pen_on_screen self' /\
  Writer.console self' = Writer.console self /\
  ((forall c, Writer._char_width self c <> Some 0) ->
   List.length (Writer.drawn self')
   = (List.length (Writer.drawn self) + List.length s)%nat).
Proof.
  revert self. induction s as [|c s IH]; intros self Hp Hpen Hh Hfit.
  - injection Hp as <-. repeat split; try apply Hpen. intros _.
    cbn [List.length]. lia.
  - cbn [Writer.printstring] in Hp.
    apply bind_Some in Hp. destruct Hp as [self1 [H1 Hp]].
    pose proof (printchar_settings _ _ _ H1) as S1.
    pose proof S1 as (_ & _ & _ & _ & _ & _ & Sh & _ & SW & _).
    destruct (printchar_pen _ _ _ H1 Hpen Hh (Hfit c))
      as (Hpen1 & Hc1 & _ & Hd1).
    destruct (IH self1 Hp Hpen1) as (Hpen' & Hc' & Hd').
    + rewrite Sh. exact Hh.
    + intros c' w Hw. rewrite SW. apply (Hfit c').
      rewrite <- (char_width_settings _ _ _ S1). exact Hw.
    + split; [exact Hpen'|]. split; [congruence|].
      intros Hnz. rewrite Hd'.
      * rewrite (Hd1 (Hnz c)). cbn [List.length]. lia.
      * intros c'. rewrite (char_width_settings _ _ _ S1). apply Hnz.
Qed.

Lemma printstring_keeps_pen_witness :
  pen_on_screen (after_AB 238) /\
  Writer.console (after_AB 238) = [] /\
  List.length (Writer.drawn (after_AB 238)) = 2%nat.
Proof.
  destruct (printstring_keeps_pen (Writer.str_of "AB") (writer_8x6 238 0)
              (after_AB 238) printstring_AB_238)
    as (Hpen & Hc & Hd).
  - unfold pen_on_screen. cbn. lia.
  - cbn. lia.
  - intros c w Hw.
    rewrite (char_width_any (writer_8x6 238 0) c 65) in Hw.
    change (Writer._char_width (writer_8x6 238 0) 65) with (Some 6) in Hw.
    injection Hw as <-. cbn. lia.
  - split; [exact Hpen|]. split; [exact Hc|].
    apply Hd. intros c.
    rewrite (char_width_any (writer_8x6 238 0) c 65).
    change (Writer._char_width (writer_8x6 238 0) 65) with (Some 6).
    discriminate.
Defined.

(** ** writer.py: what a glyph writes *)

Lemma paints_in_box (fnt : bytearray) (offset width height : Z)
  (landscape : bool) (x y color : Z) (bgcolor : option Z) (px py c : Z) :
  paints fnt offset width height landscape x y color bgcolor px py c ->
  in_box landscape x y width height px py.
Proof.
  intros (row & col & Hr & Hc & Ht & _). unfold cell_target in Ht.
  unfold in_box. destruct landscape; injection Ht as <- <-; lia.
Qed.

(** X23: [draw_char] stays inside the box of its glyph, at [(x, y)], as
    wide as the byte at the resolved address and as high as the font (the
    two exchanged in landscape): every pixel call is for a pixel of the box
    and the display memory outside the box is unchanged; the value returned
    is that width. *)
Theorem draw_char_stays_in_box (char_code x y : Z) (d d' : ILI9341.t)
  (fnt : bytearray) (color : Z) (bgcolor : option Z)
  (landscape reverse : bool) (r : Writer.draw_result) :
  Writer.draw_char char_code x y d fnt color bgcolor landscape reverse
    = Some (d', r) ->
  exists a width height evs,
    _get_char_addr fnt char_code = Some a /\
    fnt.[a] = Some width /\
    fnt.[_HEIGHT] = Some height /\
    r = Writer.RetWidth width /\
    ILI9341.calls d' = ILI9341.calls d ++ evs /\
    (forall px py c, In (ILI9341.Call_pixel px py c) evs ->
       in_box landscape x y width height px py) /\
    (forall c, ~ In (ILI9341.Call_fill c) evs) /\
    (forall px py, ~ in_box landscape x y width height px py ->
       ILI9341.gram d' px py = ILI9341.gram d px py).
Proof.
  intros H. apply draw_char_effect in H.
  destruct H as (a & width & height & Ha & Hw & Hh & Hr & _ & _
                 & (evs & Hc & Hev) & Hg).
  exists a, width, height, evs. repeat (split; [assumption|]).
  split; [|split].
  - intros px py c Hin.
    destruct (Hev _ Hin) as (qx & qy & c' & Hp & [E|E]); [|discriminate].
    injection E as <- <- <-. exact (paints_in_box _ _ _ _ _ _ _ _ _ _ _ _ Hp).
  - intros c Hin.
    destruct (Hev _ Hin) as (qx & qy & c' & _ & [E|E]); discriminate.
  - intros px py Hout. destruct (Hg px py) as [E|[c Hp]]; [exact E|].
    destruct Hout. exact (paints_in_box _ _ _ _ _ _ _ _ _ _ _ _ Hp).
Qed.

Lemma draw_char_stays_in_box_witness :
  ILI9341.gram (drawn_on_red false) 15 10 = 63488 /\
  ILI9341.gram (drawn_on_red true) 10 15 = 63488.
Proof.
  split.
  - destruct (draw_char_stays_in_box 65 10 10 red_screen (drawn_on_red false)
                font_5x7 1 None false false (Writer.RetWidth 5)
                (draw_on_red false))
      as (a & w & h & evs & Ha & Hw & Hh & _ & _ & _ & _ & Hg).
    rewrite Hg; [reflexivity|].
    assert (a = 11) as -> by (vm_compute in Ha; congruence).
    assert (w = 5) as -> by (vm_compute in Hw; congruence).
    assert (h = 7) as -> by (vm_compute in Hh; congruence).
    unfold in_box. lia.
  - destruct (draw_char_stays_in_box 65 10 10 red_screen (drawn_on_red true)
                font_5x7 1 None true false (Writer.RetWidth 5)
                (draw_on_red true))
      as (a & w & h & evs & Ha & Hw & Hh & _ & _ & _ & _ & Hg).
    rewrite Hg; [reflexivity|].
    assert (a = 11) as -> by (vm_compute in Ha; congruence).
    assert (w = 5) as -> by (vm_compute in Hw; congruence).
    assert (h = 7) as -> by (vm_compute in Hh; congruence).
    unfold in_box. lia.
Defined.

(** X24: a glyph whose width byte is 0 draws nothing: [draw_char] returns
    0 and the display it was given, with no call made. *)
Theorem draw_char_empty_glyph (char_code x y : Z) (d : ILI9341.t)
  (fnt : bytearray) (color : Z) (bgcolor : option Z)
  (landscape reverse : bool) (a height : Z) :
  fnt.[_HEIGHT] = Some height ->
  _get_char_addr fnt char_code = Some a ->
  fnt.[a] = Some 0 ->
  Writer.draw_char char_code x y d fnt color bgcolor landscape reverse
    = Some (d, Writer.RetWidth 0).
Proof.
  exact (draw_char_zero_width char_code x y d fnt color bgcolor landscape
           reverse a height).
Qed.

Lemma draw_char_empty_glyph_witness :
  Writer.draw_char 65 3 4 red_screen font_blank 1 (Some 0) false false
  = Some (red_screen, Writer.RetWidth 0).
Proof.
  apply (draw_char_empty_glyph 65 3 4 red_screen font_blank 1 (Some 0)
           false false 11 8); reflexivity.
Defined.

(** ** writer.py: what a glyph shows *)

(** A property of the indices done so far, kept by every iteration, holds
    of the whole list at the end of the loop. *)
Lemma foldM_prefix {S : Type} (P : list Z -> S -> Prop)
  (body : Z -> S -> option S) :
  forall (l pre : list Z) (s s' : S),
    P pre s ->
    (forall p i t t', In i l -> P p t -> body i t = Some t' ->
                      P (p ++ [i]) t') ->
    foldM body l s = Some s' -> P (pre ++ l) s'.
Proof.
  induction l as [|i l IH]; intros pre s s' Hs Hbody H.
  - injection H as <-. rewrite app_nil_r. exact Hs.
  - cbn [foldM] in H. apply bind_Some in H. destruct H as [t [E H]].
    replace (pre ++ i :: l) with ((pre ++ [i]) ++ l)
      by (rewrite <- app_assoc; reflexivity).
    apply (IH (pre ++ [i]) t s').
    + apply (Hbody pre i s t); [left; reflexivity | exact Hs | exact E].
    + intros p j u u' Hj. apply Hbody. right. exact Hj.
    + exact H.
Qed.

Lemma pixel_shown (d : ILI9341.t) (x y c : Z) :
  on_screen d x y ->
  ILI9341.gram (ILI9341.pixel d x y c) x y = ILI9341.pack_H c.
Proof.
  intros [Hx Hy]. unfold ILI9341.pixel, ILI9341.write_window, ILI9341.record.
  cbn [ILI9341.width ILI9341.height ILI9341.gram ILI9341.calls].
  assert ((0 <=? x) && (x <? ILI9341.width d)
          && ((0 <=? y) && (y <? ILI9341.height d)) = true) as ->.
  { repeat rewrite andb_true_iff. rewrite !Z.leb_le, !Z.ltb_lt. lia. }
  cbn [negb ILI9341.gram].
  assert ((x <=? x) && (x <=? x) && (y <=? y) && (y <=? y) = true) as ->.
  { repeat rewrite andb_true_iff. rewrite !Z.leb_le. lia. }
  reflexivity.
Qed.

Section Shown.

Variables (fnt : bytearray) (offset width height : Z) (landscape : bool).
Variables (x y color : Z) (bgcolor : option Z) (d0 : ILI9341.t).

Local Abbreviation shown :=
  (cells_shown fnt offset width height landscape x y color bgcolor d0).

Lemma shown_weaken (done done' : Z -> Z -> Prop) (d : ILI9341.t) :
  (forall row col, done' row col -> done row col) ->
  shown done d -> shown done' d.
Proof.
  intros Hsub (Hw & Hh & Hs). repeat split; try assumption.
  intros row col k Hd. apply Hs. apply Hsub. exact Hd.
Qed.

Lemma shown_cell (done : Z -> Z -> Prop) (d : ILI9341.t) (row col b : Z) :
  cell_bit fnt offset width height landscape row col
    = Some (negb (Z.land b (Z.shiftl 1 ((if landscape then col else row) mod 8))
                  =? 0)) ->
  shown done d ->
  shown (fun r c => done r c \/ (r = row /\ c = col))
    (Writer.draw_cell d b (Z.shiftl 1 ((if landscape then col else row) mod 8))
       (fst (cell_target landscape x y width row col))
       (snd (cell_target landscape x y width row col)) color bgcolor).
Proof.
  intros Hbit (Hw & Hh & Hs).
  set (px := fst (cell_target landscape x y width row col)).
  set (py := snd (cell_target landscape x y width row col)).
  set (mask := Z.shiftl 1 ((if landscape then col else row) mod 8)) in *.
  assert (forall r c,
            (r, c) <> (row, col) ->
            (fst (cell_target landscape x y width r c),
             snd (cell_target landscape x y width r c)) <> (px, py)) as Hne.
  { intros r c Hrc E. apply Hrc. unfold px, py in E.
    rewrite <- !surjective_pairing in E.
    apply cell_target_inj in E. destruct E as [-> ->]. reflexivity. }
  assert (forall c',
            cell_color fnt offset width height landscape color bgcolor row col
              = Some c' ->
            shown (fun r c => done r c \/ (r = row /\ c = col))
              (ILI9341.pixel d px py c')) as Hpix.
  { intros c' Hcol.
    destruct (pixel_effect d px py c') as (Pw & Ph & _ & Pg).
    split; [congruence|]. split; [congruence|].
    intros r c k Hd Hk Hon.
    destruct (Z.eq_dec r row) as [->|Nr].
    - destruct (Z.eq_dec c col) as [->|Nc].
      + fold px py. fold px py in Hon.
        rewrite pixel_shown by (unfold on_screen in *; rewrite Hw, Hh; exact Hon).
        congruence.
      + rewrite Pg by (apply Hne; congruence).
        apply Hs; try assumption. destruct Hd as [Hd|[_ Hd]]; [exact Hd|].
        destruct (Nc Hd).
    - rewrite Pg by (apply Hne; congruence).
      apply Hs; try assumption. destruct Hd as [Hd|[Hd _]]; [exact Hd|].
      destruct (Nr Hd). }
  unfold Writer.draw_cell. unfold cell_color in Hpix. rewrite Hbit in Hpix.
  destruct (negb (Z.land b mask =? 0)).
  - apply Hpix. reflexivity.
  - destruct bgcolor as [bg|] eqn:Ebg.
    + apply Hpix. reflexivity.
    + repeat split; try assumption.
      intros r c k Hd Hk Hon. apply Hs; try assumption.
      destruct Hd as [Hd|[-> ->]]; [exact Hd|].
      unfold cell_color in Hk. rewrite Hbit in Hk. discriminate.
Qed.

End Shown.

(** The two loops of [draw_char], for one orientation: at the end every
    cell of the glyph is shown. *)
Ltac shown_loops fnt a width height ls x y color bgcolor d E :=
  apply (foldM_prefix
           (fun rows t =>
              cells_shown fnt (a + 1) width height ls x y color bgcolor d
                (fun r c => In r rows /\ 0 <= c < width) t)
           _ _ [] _ _) in E;
  [ exact E
  | repeat split; intros r0 c0 k0 [[] _]
  | intros p i t t' Hi Ht Hin;
    apply (foldM_prefix
             (fun cols u =>
                cells_shown fnt (a + 1) width height ls x y color bgcolor d
                  (fun r c => (In r p /\ 0 <= c < width) \/
                              (r = i /\ In c cols)) u)
             _ _ [] _ _) in Hin;
    [ revert Hin; apply shown_weaken; intros r0 c0 [Hr Hc];
      apply in_app_or in Hr; destruct Hr as [Hr|[<-|[]]];
      [left; auto | right; split; [reflexivity | apply In_range; exact Hc]]
    | revert Ht; apply shown_weaken; intros r0 c0 [Hd|[_ []]]; exact Hd
    | intros q j u u' Hj Hu Hb;
      apply bind_Some in Hb; destruct Hb as [b [Eb Hb]]; injection Hb as <-;
      apply (shown_weaken fnt (a + 1) width height ls x y color bgcolor d
               (fun r c => ((In r p /\ 0 <= c < width) \/ (r = i /\ In c q))
                           \/ (r = i /\ c = j)));
      [ intros r0 c0 [Hd|[-> Hc]];
        [ left; left; exact Hd
        | apply in_app_or in Hc; destruct Hc as [Hc|[<-|[]]];
          [left; right; auto | right; auto] ]
      | apply (shown_cell fnt (a + 1) width height ls x y color bgcolor d _ u
                 i j b); [unfold cell_bit; rewrite Eb; reflexivity | exact Hu]
      ] ] ].

(** X25: after [draw_char], every cell of the glyph that falls on the
    screen shows its color: the text color where the bit tested is set, the
    background color, when there is one, where it is not. *)
Theorem draw_char_shows_cells (char_code x y : Z) (d d' : ILI9341.t)
  (fnt : bytearray) (color : Z) (bgcolor : option Z)
  (landscape reverse : bool) (r : Writer.draw_result)
  (a width height row col k : Z) :
  Writer.draw_char char_code x y d fnt color bgcolor landscape reverse
    = Some (d', r) ->
  _get_char_addr fnt char_code = Some a ->
  fnt.[a] = Some width ->
  fnt.[_HEIGHT] = Some height ->
  0 <= row < height ->
  0 <= col < width ->
  cell_color fnt (a + 1) width height landscape color bgcolor row col
    = Some k ->
  on_screen d (fst (cell_target landscape x y width row col))
    (snd (cell_target landscape x y width row col)) ->
  ILI9341.gram d' (fst (cell_target landscape x y width row col))
    (snd (cell_target landscape x y width row col))
  = ILI9341.pack_H k.
Proof.
  intros H Ha Hw Hh Hrow Hcol Hk Hon.
  unfold Writer.draw_char in H.
  rewrite Hh in H. cbn [bind] in H. rewrite Ha in H. cbn [bind] in H.
  rewrite (get_char_addr_nonzero _ _ _ Ha), Hw in H. cbn [bind] in H.
  apply bind_Some in H. destruct H as [d1 [E H]]. injection H as <- _.
  assert (cells_shown fnt (a + 1) width height landscape x y color bgcolor d
            (fun r c => In r ([] ++ range height) /\ 0 <= c < width) d1)
    as (_ & _ & Hs).
  { destruct landscape.
    - shown_loops fnt a width height true x y color bgcolor d E.
    - shown_loops fnt a width height false x y color bgcolor d E. }
  apply (Hs row col k); try assumption.
  split; [apply In_range; exact Hrow | exact Hcol].
Qed.

Lemma draw_char_shows_cells_witness :
  ILI9341.gram (drawn_on_red false) 10 10 = ILI9341.pack_H 1 /\
  ILI9341.gram (drawn_on_red true) 10 14 = ILI9341.pack_H 1.
Proof.
  split.
  - apply (draw_char_shows_cells 65 10 10 red_screen (drawn_on_red false)
             font_5x7 1 None false false (Writer.RetWidth 5) 11 5 7 0 0 1
             (draw_on_red false) eq_refl eq_refl eq_refl);
      [lia | lia | reflexivity | unfold on_screen; cbn; lia].
  - apply (draw_char_shows_cells 65 10 10 red_screen (drawn_on_red true)
             font_5x7 1 None true false (Writer.RetWidth 5) 11 5 7 0 0 1
             (draw_on_red true) eq_refl eq_refl eq_refl);
      [lia | lia | reflexivity | unfold on_screen; cbn; lia].
Defined.

(** ** writer.py: nothing is written outside the screen *)

Lemma same_off_screen_refl (d : ILI9341.t) : same_off_screen d d.
Proof. repeat split. Qed.

Lemma same_off_screen_trans (d1 d2 d3 : ILI9341.t) :
  same_off_screen d1 d2 -> same_off_screen d2 d3 -> same_off_screen d1 d3.
Proof.
  intros (W12 & H12 & G12) (W23 & H23 & G23).
  split; [congruence|]. split; [congruence|].
  intros px py Hoff. rewrite G23, G12; [reflexivity | exact Hoff|].
  unfold on_screen in *. rewrite W12, H12. exact Hoff.
Qed.

Lemma pixel_off_screen (d : ILI9341.t) (x y c : Z) :
  same_off_screen d (ILI9341.pixel d x y c).
Proof.
  destruct (pixel_effect d x y c) as (Pw & Ph & _ & Pg).
  split; [exact Pw|]. split; [exact Ph|].
  intros px py Hoff.
  destruct (Z.eq_dec px x) as [->|Nx];
    [destruct (Z.eq_dec py y) as [->|Ny]|];
    try (apply Pg; congruence).
  unfold ILI9341.pixel, ILI9341.record.
  cbn [ILI9341.width ILI9341.height].
  assert ((0 <=? x) && (x <? ILI9341.width d)
          && ((0 <=? y) && (y <? ILI9341.height d)) = false) as ->;
    [|reflexivity].
  destruct ((0 <=? x) && (x <? ILI9341.width d)
            && ((0 <=? y) && (y <? ILI9341.height d))) eqn:E;
    [|reflexivity].
  exfalso. apply Hoff. unfold on_screen.
  repeat rewrite andb_true_iff in E.
  rewrite !Z.leb_le, !Z.ltb_lt in E. lia.
Qed.

Lemma draw_char_off_screen (char_code x y : Z) (d d' : ILI9341.t)
  (fnt : bytearray) (color : Z) (bgcolor : option Z)
  (landscape reverse : bool) (r : Writer.draw_result) :
  Writer.draw_char char_code x y d fnt color bgcolor landscape reverse
    = Some (d', r) ->
  same_off_screen d d'.
Proof.
  unfold Writer.draw_char. intros H.
  apply bind_Some in H. destruct H as [height [_ H]].
  apply bind_Some in H. destruct H as [a [_ H]].
  destruct (a =? 0); [injection H as <- _; apply same_off_screen_refl|].
  apply bind_Some in H. destruct H as [width [_ H]].
  apply bind_Some in H. destruct H as [d1 [E H]]. injection H as <- _.
  assert (forall t b mask px py,
            same_off_screen d t ->
            same_off_screen d
              (Writer.draw_cell t b mask px py color bgcolor)) as Hcell.
  { intros t b mask px py Ht. unfold Writer.draw_cell.
    destruct (negb _);
      [eapply same_off_screen_trans; [exact Ht | apply pixel_off_screen]|].
    destruct bgcolor;
      [eapply same_off_screen_trans; [exact Ht | apply pixel_off_screen]
      |exact Ht]. }
  destruct landscape;
    (revert E; apply foldM_inv; [|apply same_off_screen_refl];
     intros row t t' _ Ht; apply foldM_inv; [|exact Ht];
     intros col u u' _ Hu Hb;
     apply bind_Some in Hb; destruct Hb as [b [_ Hb]]; injection Hb as <-;
     apply Hcell; exact Hu).
Qed.

Lemma fill_off_screen (d : ILI9341.t) (c : Z) :
  0 < ILI9341.width d -> 0 < ILI9341.height d ->
  same_off_screen d (ILI9341.fill d c).
Proof.
  intros HW HH.
  unfold ILI9341.fill, ILI9341.fill_rectangle, ILI9341.write_window,
    ILI9341.record.
  cbn [ILI9341.width ILI9341.height ILI9341.gram ILI9341.calls].
  split; [reflexivity|]. split; [reflexivity|]. intros px py Hoff.
  cbn [ILI9341.width ILI9341.height ILI9341.gram ILI9341.calls].
  match goal with |- (if ?b then _ else _) = _ => destruct b eqn:E end;
    [|reflexivity].
  exfalso. apply Hoff. unfold on_screen.
  repeat rewrite andb_true_iff in E. rewrite !Z.leb_le in E. lia.
Qed.

Lemma printchar_off_screen (self self' : Writer.t) (c : Z) :
  Writer._printchar self c = Some self' ->
  0 < ILI9341.width (Writer.device self) ->
  0 < ILI9341.height (Writer.device self) ->
  same_off_screen (Writer.device self) (Writer.device self').
Proof.
  unfold Writer._printchar. intros H HW HH.
  apply bind_Some in H. destruct H as [w [_ H]].
  destruct (w =? 0); [injection H as <-; apply same_off_screen_refl|].
  assert (same_off_screen (Writer.device self)
            (Writer.device (Writer.wrap_text self w))) as Hwrap.
  { unfold Writer.wrap_text. destruct (_ >? _); [|apply same_off_screen_refl].
    cbn. destruct (_ >=? _); [|apply same_off_screen_refl].
    cbn. apply fill_off_screen; assumption. }
  eapply same_off_screen_trans; [exact Hwrap|].
  unfold Writer.render_char in H.
  destruct (_ <? 0).
  { injection H as <-. destruct (_ && _); apply same_off_screen_refl. }
  destruct (_ >=? _).
  { injection H as <-. destruct (_ && _); apply same_off_screen_refl. }
  apply bind_Some in H. destruct H as [[d r] [E H]]. injection H as <-.
  cbn in E. apply draw_char_off_screen in E. exact E.
Qed.

(** X26: on a screen at least one pixel wide and high, printing a string
    changes no display memory outside the screen, clears included. *)
Theorem printstring_stays_on_screen (s : Writer.str)
  (self self' : Writer.t) (px py : Z) :
  Writer.printstring self s = Some self' ->
  0 < ILI9341.width (Writer.device self) ->
  0 < ILI9341.height (Writer.device self) ->
  ~ on_screen (Writer.device self) px py ->
  ILI9341.gram (Writer.device self') px py
  = ILI9341.gram (Writer.device self) px py.
Proof.
  intros H HW HH Hoff.
  assert (same_off_screen (Writer.device self) (Writer.device self'))
    as (_ & _ & Hg); [|apply Hg; exact Hoff].
  clear px py Hoff. revert self H HW HH.
  induction s as [|c s IH]; intros self H HW HH.
  - injection H as <-. apply same_off_screen_refl.
  - cbn [Writer.printstring] in H.
    apply bind_Some in H. destruct H as [self1 [H1 H]].
    pose proof (printchar_off_screen _ _ _ H1 HW HH) as S1.
    eapply same_off_screen_trans; [exact S1|].
    destruct S1 as (SW & SH & _).
    apply IH; [exact H | rewrite SW; exact HW | rewrite SH; exact HH].
Qed.

Lemma printstring_stays_on_screen_witness :
  ILI9341.gram (Writer.device (after_AB 238)) 240 0 = 0 /\
  ILI9341.gram (Writer.device (after_AB 238)) 0 8 = 0.
Proof.
  split.
  - rewrite (printstring_stays_on_screen (Writer.str_of "AB")
               (writer_8x6 238 0) (after_AB 238) 240 0 printstring_AB_238);
      [reflexivity | reflexivity | reflexivity |].
    unfold on_screen. cbn. lia.
  - rewrite (printstring_stays_on_screen (Writer.str_of "AB")
               (writer_8x6 238 0) (after_AB 238) 0 8 printstring_AB_238);
      [reflexivity | reflexivity | reflexivity |].
    unfold on_screen. cbn. lia.
Defined.

(** ** writer.py: fixed pitch helpers *)

(** X27: [chars_per_row] raises exactly when [max_width] is 0; with a
    positive [max_width], a cell [max_width] wide placed by [charpos] at any
    column below [chars_per_row] ends within the width of the display: along
    x upright, along y in landscape, where the row sets x. *)
Theorem charpos_fits (self : Writer.t) (row col n : Z) :
  (Writer.chars_per_row self = None <-> Writer.max_width self = 0) /\
  (0 < Writer.max_width self ->
   Writer.chars_per_row self = Some n ->
   0 <= col < n ->
   n = ILI9341.width (Writer.device self) / Writer.max_width self /\
   (if Writer.landscape self
    then fst (Writer.charpos self row col) = row * Writer.height self /\
         0 <= snd (Writer.charpos self row col) /\
         snd (Writer.charpos self row col) + Writer.max_width self
           <= ILI9341.width (Writer.device self)
    else snd (Writer.charpos self row col) = row * Writer.height self /\
         0 <= fst (Writer.charpos self row col) /\
         fst (Writer.charpos self row col) + Writer.max_width self
           <= ILI9341.width (Writer.device self))).
Proof.
  unfold Writer.chars_per_row. split.
  - destruct (Writer.max_width self =? 0) eqn:E0.
    + apply Z.eqb_eq in E0. split; auto.
    + apply Z.eqb_neq in E0. split; [discriminate | intros H; destruct (E0 H)].
  - intros Hmw Hn Hcol.
    destruct (Writer.max_width self =? 0) eqn:E0;
      [apply Z.eqb_eq in E0; lia|].
    injection Hn as <-. split; [reflexivity|].
    pose proof (Z.mul_div_le (ILI9341.width (Writer.device self))
                  (Writer.max_width self) Hmw) as Hle.
    assert (col * Writer.max_width self + Writer.max_width self
            <= ILI9341.width (Writer.device self)) as Hfit by nia.
    unfold Writer.charpos. destruct (Writer.landscape self); cbn [fst snd];
      (split; [reflexivity|]); split; try exact Hfit; nia.
Qed.

Lemma charpos_fits_witness :
  snd (Writer.charpos (writer_8x6 0 0) 2 39) = 2 * 8 /\
  fst (Writer.charpos (writer_8x6 0 0) 2 39) + 6 <= 240.
Proof.
  destruct (charpos_fits (writer_8x6 0 0) 2 39 40) as (_ & H).
  destruct H as (_ & H); [reflexivity | reflexivity | lia |].
  cbn [Writer.landscape writer_8x6] in H.
  destruct H as (Hy & _ & Hx). split; [exact Hy | exact Hx].
Defined.
